(** * Voice chatbot backend ([app.py]): model and verification

    The Flask application has two routes with logic: [/health] and [/chat].
    Both are embedded here as monadic programs over a log of the
    effects they perform (environment reads, the JSON body read, the one
    outbound [requests.post], and log records), with Python's early
    [return] and exceptions made explicit.  Python values are modelled
    as they are at run time: strings are sequences of Unicode code
    points, dictionaries are finite maps keyed by strings, numbers are
    integers or binary64 floats. *)

From Stdlib Require Import ZArith NArith List String Ascii Bool Lia PrimFloat.
From Stdlib Require DecimalString.
From stdpp Require Import base option list gmap.
Import ListNotations.

Local Open Scope Z_scope.

(** ** Python strings *)

(** A Python [str] is a sequence of code points; [len] counts them. *)
Definition str := list N.

(** The source file is UTF-8: a literal denotes the code points its bytes
    decode to.  [utf8_decode] covers the one- to four-byte forms. *)
Fixpoint utf8_decode (bs : list N) : str :=
  match bs with
  | [] => []
  | b0 :: t0 =>
    if (b0 <? 128)%N then b0 :: utf8_decode t0 else
    match t0 with
    | [] => []
    | b1 :: t1 =>
      if (b0 <? 224)%N then
        ((b0 mod 32) * 64 + b1 mod 64)%N :: utf8_decode t1
      else
      match t1 with
      | [] => []
      | b2 :: t2 =>
        if (b0 <? 240)%N then
          (((b0 mod 16) * 64 + b1 mod 64) * 64 + b2 mod 64)%N
            :: utf8_decode t2
        else
        match t2 with
        | [] => []
        | b3 :: t3 =>
          ((((b0 mod 8) * 64 + b1 mod 64) * 64 + b2 mod 64) * 64
             + b3 mod 64)%N :: utf8_decode t3
        end
      end
    end
  end.

(** [py "..."] is the Python string written by that literal. *)
Definition py (s : string) : str :=
  utf8_decode (map N_of_ascii (list_ascii_of_string s)).

(** The escape [\n]. *)
Definition LF : string := String (ascii_of_nat 10) EmptyString.

(** [len(s)] *)
Definition len (s : str) : Z := Z.of_nat (length s).

(** [str.isspace] on one code point: CPython's [_PyUnicode_IsWhitespace]. *)
Definition isspace (c : N) : bool :=
  ((9 <=? c) && (c <=? 13) || (28 <=? c) && (c <=? 32)
   || (c =? 133) || (c =? 160) || (c =? 5760)
   || (8192 <=? c) && (c <=? 8202)
   || (c =? 8232) || (c =? 8233) || (c =? 8239) || (c =? 8287)
   || (c =? 12288))%N.

Fixpoint lstrip (s : str) : str :=
  match s with
  | c :: s' => if isspace c then lstrip s' else s
  | [] => []
  end.

Definition rstrip (s : str) : str := rev (lstrip (rev s)).

(** [s.strip()] *)
Definition strip (s : str) : str := rstrip (lstrip s).

(** [str(n)] for an [int], as f-strings and [%s] render it. *)
Definition str_of_int (n : Z) : str :=
  py (DecimalString.NilZero.string_of_int (Z.to_int n)).

(** ** Python values, as far as JSON produces them *)

#[warnings="-register-all"]
Inductive value :=
| VNone
| VBool (b : bool)
| VInt (n : Z)
| VFloat (f : float)
| VStr (s : str)
| VList (l : list value)
| VDict (d : gmap str value).

(** A dictionary display [{k1: v1, ...}] with distinct keys. *)
Definition dict {A} (kvs : list (str * A)) : gmap str A := list_to_map kvs.

(** Truth value testing: [bool(v)], used by [not v] and [if v]. *)
Definition str_truthy (s : str) : bool :=
  match s with [] => false | _ :: _ => true end.

Definition truthy (v : value) : bool :=
  match v with
  | VNone => false
  | VBool b => b
  | VInt n => negb (n =? 0)
  | VFloat f => negb (PrimFloat.eqb f 0%float)
  | VStr s => str_truthy s
  | VList l => match l with [] => false | _ :: _ => true end
  | VDict d => negb (bool_decide (d = ∅))
  end.

(** [os.getenv] gives [None] or a [str]. *)
Definition getenv_truthy (o : option str) : bool :=
  match o with Some s => str_truthy s | None => false end.

(** [f"{o}"] for such a value. *)
Definition format_getenv (o : option str) : str :=
  match o with Some s => s | None => py "None" end.

Definition isinstance_str (v : value) : bool :=
  match v with VStr _ => true | _ => false end.

(** ** Exceptions *)

(** The classes that can be raised on the paths of [chat]: the built-in
    ones ([RecursionError] is what the JSON decoder raises on a body
    nested too deep), and those of [requests.exceptions]. *)
Inductive exn :=
| KeyError | IndexError | ValueError | TypeError | AttributeError
| RecursionError
| RequestException
| Timeout | ConnectTimeout | ReadTimeout
| ConnectionError | SSLError | ProxyError
| TooManyRedirects
| JSONDecodeError.

#[global] Instance exn_eq_dec : EqDecision exn.
Proof. solve_decision. Defined.

(** Direct base classes, as [requests/exceptions.py] declares them. *)
Definition bases (e : exn) : list exn :=
  match e with
  | Timeout | ConnectionError | TooManyRedirects => [RequestException]
  | ConnectTimeout => [ConnectionError; Timeout]
  | ReadTimeout => [Timeout]
  | SSLError | ProxyError => [ConnectionError]
  | JSONDecodeError => [RequestException; ValueError]
  | _ => []
  end.

(** [issubclass(e, c)]; the hierarchy above is two levels deep. *)
Definition issubclass (e c : exn) : bool :=
  bool_decide (e = c)
  || existsb (fun b => bool_decide (b = c)
                       || existsb (fun b' => bool_decide (b' = c)) (bases b))
       (bases e).

(** ** Subscripts and method calls on values *)

Inductive key := KStr (s : str) | KInt (i : Z).

(** Sequence indexing [l[i]], negative indices counting from the end. *)
Definition seq_index {A} (l : list A) (i : Z) : option A :=
  let n := Z.of_nat (length l) in
  if (0 <=? i) && (i <? n) then l !! Z.to_nat i
  else if (- n <=? i) && (i <? 0) then l !! Z.to_nat (n + i)
  else None.

(** [obj[k]]: the value, or the exception class Python raises.  Keys of a
    dictionary built from JSON are strings, so an integer key is absent. *)
Definition getitem (obj : value) (k : key) : exn + value :=
  match obj, k with
  | VDict d, KStr s =>
      match d !! s with Some v => inr v | None => inl KeyError end
  | VDict _, KInt _ => inl KeyError
  | VList l, KInt i =>
      match seq_index l i with Some v => inr v | None => inl IndexError end
  | VList _, KStr _ => inl TypeError
  | VStr s, KInt i =>
      match seq_index s i with
      | Some c => inr (VStr [c])
      | None => inl IndexError
      end
  | VStr _, KStr _ => inl TypeError
  | (VNone | VBool _ | VInt _ | VFloat _), _ => inl TypeError
  end.

(** [obj.get(k, default)]: only dictionaries have the method. *)
Definition method_get (obj : value) (k : str) (default : value)
  : exn + value :=
  match obj with
  | VDict d => inr (match d !! k with Some v => v | None => default end)
  | _ => inl AttributeError
  end.

(** [obj.strip()]: only strings have the method. *)
Definition method_strip (obj : value) : exn + str :=
  match obj with
  | VStr s => inr (strip s)
  | _ => inl AttributeError
  end.

(** ** Constants of the application *)

Definition OPENROUTER_API_URL : str :=
  py "https://openrouter.ai/api/v1/chat/completions".

Definition MODEL_ID : str := py "openai/gpt-4o-mini".

Definition REQUEST_TIMEOUT_SECONDS : Z := 30.

Definition MAX_MESSAGE_LENGTH : Z := 2000.

Definition SYSTEM_PROMPT : str := py (
    "You are a professional voice assistant. "
    ++ "The user is speaking to you; their words are transcribed by a browser speech recognition engine "
    ++ "which frequently mishears or phonetically mangles words — especially for math, science, and technical terms. "
    ++ "Your job is to infer the user's true intent from context, even when the transcription is imperfect." ++ LF ++ LF

    ++ "UNDERSTANDING VOICE TRANSCRIPTION ARTIFACTS:" ++ LF
    ++ "- 'hall square', 'whole square', 'whole squared' = whole squared, as in (A+B)²" ++ LF
    ++ "- 'a plus b whole square' = (A+B)², which expands to A² + 2AB + B²" ++ LF
    ++ "- 'pie' or 'pi' = π (the mathematical constant)" ++ LF
    ++ "- 'root' or 'square root of X' = √X" ++ LF
    ++ "- 'X squared', 'X to the power 2' = X²" ++ LF
    ++ "- 'X cubed', 'X to the power 3' = X³" ++ LF
    ++ "- Letters like 'a', 'b', 'x', 'y', 'n' followed by math words are mathematical variables" ++ LF
    ++ "- 'sigma' = Σ (summation), 'delta' = Δ, 'theta' = θ, 'lambda' = λ" ++ LF
    ++ "- 'integral of', 'differentiate', 'derivative of' = calculus operations" ++ LF
    ++ "- Garbled proper nouns, company names, or technical terms: infer from context" ++ LF
    ++ "- If a word sounds like it might be a mishearing of a technical term, treat it as such" ++ LF ++ LF

    ++ "OUTPUT RULES:" ++ LF
    ++ "1. Be concise — 1 to 3 sentences max unless the topic genuinely requires more detail." ++ LF
    ++ "2. No markdown, no bullet points, no asterisks, no code fences." ++ LF
    ++ "3. Do NOT repeat or echo the user's garbled transcription. Answer the inferred question directly." ++ LF
    ++ "4. Never open with filler words like 'Certainly', 'Of course', 'Sure', or 'Great question'. "
    ++ "Begin your answer immediately." ++ LF
    ++ "5. FORMULAS AND MATH: always write them using proper Unicode symbols — ², ³, √, π, Σ, ∫, ±, ≈, ≠, ≤, ≥, ∞, θ, λ, Δ, α, β, γ, etc. "
    ++ "For example: write '(A+B)² = A² + 2AB + B²' not 'A plus B whole squared equals A squared plus 2AB plus B squared'. "
    ++ "The app will convert symbols to spoken words before reading them aloud — you do not need to spell them out." ++ LF
    ++ "6. Prose surrounding formulas should still be plain conversational English." ++ LF
    ++ "7. Spell out non-math abbreviations: 'as soon as possible' not 'ASAP'." ++ LF
    ++ "8. Match the user's register: casual if casual, technical if technical." ++ LF
    ++ "9. If you cannot answer, say so in one sentence." ++ LF
    ++ "10. Never fabricate facts. If uncertain, say you are not sure."
)%string.

(** ** The [requests] library, as [chat] uses it *)

(** The arguments of [requests.post(url, json=..., headers=..., timeout=...)]. *)
Record PostCall := {
  post_url : str;
  post_json : value;
  post_headers : gmap str str;
  post_timeout : Z
}.

(** A [requests.Response]: the status line, the decoded body, and what
    [.json()] does on that body: it returns the parsed value, or raises
    ([JSONDecodeError] for a body that is not JSON, [RecursionError] for
    one nested too deep). *)
Record Response := {
  status_code : Z;
  text : str;
  json_result : exn + value
}.

(** The parsed body, where [.json()] returns one. *)
Definition json_body (r : Response) : option value :=
  match json_result r with inr v => Some v | inl _ => None end.

(** [Response.ok]: [raise_for_status()] raises for [400 <= status_code < 600]
    and for no other code; [ok] is [False] exactly when it raises. *)
Definition ok (r : Response) : bool :=
  negb ((400 <=? status_code r) && (status_code r <? 600)).

(** One call either raises or returns a response. *)
Inductive post_result :=
| PostRaises (e : exn)
| PostReturns (r : Response).

(** ** What a request handler runs against *)

Record World := {
  (** [os.environ], after [load_dotenv()] *)
  environ : gmap str str;
  (** what [request.get_json(silent=True)] does: it returns the parsed
      body, or [None] for a body that is not JSON ([silent] silences
      [ValueError]); any other exception of the decoder gets out, such
      as [RecursionError] for a body nested too deep *)
  get_json_silent : exn + value;
  (** the network and the upstream service *)
  upstream : PostCall -> post_result
}.

(** ** Effects *)

Inductive level := INFO | WARNING | ERROR.

Inductive logarg :=
| LStr (s : str)
| LInt (n : Z)
| LExc (e : exn).

Inductive event :=
| EGetenv (name : str)
| EGetJson
| EPost (c : PostCall)
| ELog (lvl : level) (fmt : str) (args : list logarg).

(** What a view function hands back to Flask: [(jsonify(body), status)]. *)
Definition response : Type := value * Z.

Definition jsonify (d : gmap str value) : value := VDict d.

(** A statement either falls through with a value, leaves the function
    with [return], or raises. *)
Inductive flow (A : Type) :=
| Next (a : A)
| Return (r : response)
| Raise (e : exn).
Arguments Next {A} a.
Arguments Return {A} r.
Arguments Raise {A} e.

(** Programs thread the log of events performed so far. *)
Definition M (A : Type) : Type := list event -> flow A * list event.

#[global] Instance M_ret : MRet M := fun A a t => (Next a, t).

#[global] Instance M_bind : MBind M := fun A B f m t =>
  match m t with
  | (Next a, t') => f a t'
  | (Return r, t') => (Return r, t')
  | (Raise e, t') => (Raise e, t')
  end.

Definition emit (ev : event) : M unit := fun t => (Next tt, t ++ [ev]).

(** [return r] *)
Definition return_ {A} (r : response) : M A := fun t => (Return r, t).

(** [raise e] *)
Definition raise {A} (e : exn) : M A := fun t => (Raise e, t).

(** An operation on values that may raise. *)
Definition lift {A} (x : exn + A) : M A :=
  match x with inl e => raise e | inr a => mret a end.

(** [try: body  except ...: handler]: [handler e] is [None] when no
    [except] clause matches the class of [e]. *)
Definition try_except {A} (body : M A) (handler : exn -> option (M A))
  : M A := fun t =>
  match body t with
  | (Raise e, t') =>
      match handler e with
      | Some h => h t'
      | None => (Raise e, t')
      end
  | r => r
  end.

(** [isinstance(e, (c1, c2, ...))] *)
Definition isinstance_exn (e : exn) (cs : list exn) : bool :=
  existsb (issubclass e) cs.

Definition os_getenv (w : World) (name : str) : M (option str) :=
  emit (EGetenv name) ;; mret (environ w !! name).

Definition request_get_json (w : World) : M value :=
  emit EGetJson ;; lift (get_json_silent w).

Definition requests_post (w : World) (c : PostCall) : M Response :=
  emit (EPost c) ;;
  match upstream w c with
  | PostRaises e => raise e
  | PostReturns r => mret r
  end.

Definition response_json (r : Response) : M value :=
  lift (json_result r).

Definition logger_error (fmt : str) (args : list logarg) : M unit :=
  emit (ELog ERROR fmt args).
Definition logger_warning (fmt : str) (args : list logarg) : M unit :=
  emit (ELog WARNING fmt args).
Definition logger_info (fmt : str) (args : list logarg) : M unit :=
  emit (ELog INFO fmt args).

(** A view function ends by [return] or by an exception. *)
Inductive outcome :=
| Returned (r : response)
| Raised (e : exn).

Definition run (m : M Empty_set) : outcome * list event :=
  match m [] with
  | (Next a, _) => match a with end
  | (Return r, t) => (Returned r, t)
  | (Raise e, t) => (Raised e, t)
  end.

(** ** Route: health check *)

Definition health (w : World) : M Empty_set :=
  api_key ← os_getenv w (py "OPENROUTER_API_KEY");
  return_ (jsonify (dict [
    (py "status", VStr (py "ok"));
    (py "model", VStr MODEL_ID);
    (py "api_key_configured", VBool (getenv_truthy api_key))
  ]), 200).

(** ** Route: chat *)

Definition error_body (msg : str) : value :=
  jsonify (dict [(py "error", VStr msg)]).

(** The [payload] dictionary.  The literal [0.7] denotes the nearest
    binary64 value in Python as it does here. *)
#[warnings="-inexact-float"]
Definition build_payload (user_message : str) : value :=
  VDict (dict [
    (py "model", VStr MODEL_ID);
    (py "messages", VList [
       (* System message sets the assistant's behaviour for every turn. *)
       VDict (dict [(py "role", VStr (py "system"));
                    (py "content", VStr SYSTEM_PROMPT)]);
       (* The user's current spoken message. *)
       VDict (dict [(py "role", VStr (py "user"));
                    (py "content", VStr user_message)])
     ]);
    (py "temperature", VFloat 0.7%float);
    (py "max_tokens", VInt 512)
  ]).

(** The [headers] dictionary. *)
Definition build_headers (api_key : option str) : gmap str str :=
  dict [
    (py "Authorization", py "Bearer " ++ format_getenv api_key);
    (py "Content-Type", py "application/json");
    (py "HTTP-Referer", py "http://localhost:5000");
    (py "X-Title", py "Voice Chatbot")
  ].

(** The [except] clauses around [requests.post]. *)
Definition post_handlers {A} (exc : exn) : option (M A) :=
  if isinstance_exn exc [Timeout] then Some (
    logger_warning (py "OpenRouter request timed out after %ds.")
                   [LInt REQUEST_TIMEOUT_SECONDS] ;;
    return_ (error_body
      (py "The AI service took too long to respond. Please try again."), 504))
  else if isinstance_exn exc [ConnectionError] then Some (
    logger_error (py "Connection error reaching OpenRouter: %s") [LExc exc] ;;
    return_ (error_body
      (py "Could not reach the AI service. Check your internet connection."),
      502))
  else None.

(** The body of [if not response.ok:]. *)
Definition chat_upstream_error (response : Response) : M Empty_set :=
  logger_error (py "OpenRouter returned HTTP %s: %s")
               [LInt (status_code response); LStr (take 400 (text response))] ;;
  if status_code response =? 429 then
    return_ (error_body
      (py "API rate limit reached. Please wait a moment and try again."), 502)
  else if (status_code response =? 401) || (status_code response =? 403) then
    return_ (error_body (py "API key is invalid or unauthorised."), 502)
  else
    return_ (error_body
      (py "AI service returned an error (HTTP "
       ++ str_of_int (status_code response) ++ py ")."), 502).

(** The body of the [try:] that extracts the reply text. *)
Definition extract_reply_text (response : Response) : M str :=
  result ← response_json response;
  choices ← lift (getitem result (KStr (py "choices")));
  choice ← lift (getitem choices (KInt 0));
  message ← lift (getitem choice (KStr (py "message")));
  content ← lift (getitem message (KStr (py "content")));
  lift (method_strip content).

(** The handler from "Extract the reply text safely" to its end. *)
Definition chat_reply (user_message : str) (response : Response)
  : M Empty_set :=
  reply_text ← try_except (extract_reply_text response)
    (fun exc =>
       if isinstance_exn exc [KeyError; IndexError; ValueError; TypeError]
       then Some (
         logger_error
           (py "Unexpected OpenRouter response structure: %s | body: %s")
           [LExc exc; LStr (take 400 (text response))] ;;
         return_ (error_body
           (py "Received an unexpected response from the AI service."), 502))
       else None);
  (* Guard against empty replies *)
  if negb (str_truthy reply_text) then
    logger_warning (py "OpenRouter returned an empty reply for message: %r")
                   [LStr (take 80 user_message)] ;;
    return_ (error_body
      (py "The AI returned an empty response. Please try rephrasing."), 502)
  else
  (* Success *)
  logger_info (py "Chat OK — user msg: %d chars, reply: %d chars")
              [LInt (len user_message); LInt (len reply_text)] ;;
  return_ (jsonify (dict [(py "reply", VStr reply_text)]), 200).

Definition chat (w : World) : M Empty_set :=
  (* Guard 1: API key must be configured *)
  api_key ← os_getenv w (py "OPENROUTER_API_KEY");
  if negb (getenv_truthy api_key) then
    logger_error (py "OPENROUTER_API_KEY is not set in the environment.") [] ;;
    return_ (error_body
               (py "Server configuration error: API key is missing."), 500)
  else
  (* Guard 2: body must be valid JSON *)
  data ← request_get_json w;
  if negb (truthy data) then
    return_ (error_body (py "Request body must be JSON."), 400)
  else
  (* Guard 3: message must be a non-empty string *)
  user_message ← lift (method_get data (py "message") (VStr (py "")));
  if negb (isinstance_str user_message) then
    return_ (error_body (py "The 'message' field must be a string."), 400)
  else
  user_message ← lift (method_strip user_message);
  if negb (str_truthy user_message) then
    return_ (error_body (py "Message cannot be empty."), 400)
  else
  (* Guard 4: enforce length limit *)
  if MAX_MESSAGE_LENGTH <? len user_message then
    return_ (error_body
               (py "Message exceeds the " ++ str_of_int MAX_MESSAGE_LENGTH
                ++ py "-character limit."), 400)
  else
  (* Build the OpenRouter request payload *)
  let payload := build_payload user_message in
  let headers := build_headers api_key in
  (* Call OpenRouter *)
  response ← try_except
    (requests_post w {| post_url := OPENROUTER_API_URL;
                        post_json := payload;
                        post_headers := headers;
                        post_timeout := REQUEST_TIMEOUT_SECONDS |})
    post_handlers;
  (* Validate the upstream HTTP response *)
  if negb (ok response) then chat_upstream_error response
  else chat_reply user_message response.

(** ** Vocabulary for the statements *)

(** The upstream calls among the events of a run. *)
Definition posts (t : list event) : list PostCall :=
  omap (fun ev => match ev with EPost c => Some c | _ => None end) t.

(** What the handler returned, and the events it performed. *)
Definition result (m : M Empty_set) : outcome := fst (run m).
Definition events (m : M Empty_set) : list event := snd (run m).

(** The parsed request body, where [get_json] returns one; on a request
    for which it raises there is none, and [None] stands in. *)
Definition request_json (w : World) : value :=
  match get_json_silent w with inr data => data | inl _ => VNone end.

(** The secret, as the process sees it. *)
Definition api_key_of (w : World) : option str :=
  environ w !! py "OPENROUTER_API_KEY".

Definition api_key_configured (w : World) : bool :=
  getenv_truthy (api_key_of w).

(** The [message] field as Guard 3 reads it. *)
Definition message_field (w : World) : exn + value :=
  method_get (request_json w) (py "message") (VStr (py "")).

(** The trimmed message of a request that passes all four guards. *)
Definition validated_message (w : World) : option str :=
  if api_key_configured w && truthy (request_json w) then
    match message_field w with
    | inr (VStr raw) =>
        if str_truthy (strip raw)
           && negb (MAX_MESSAGE_LENGTH <? len (strip raw))
        then Some (strip raw) else None
    | _ => None
    end
  else None.

(** The one call [chat] makes for a validated message. *)
Definition upstream_call (w : World) (user_message : str) : PostCall :=
  {| post_url := OPENROUTER_API_URL;
     post_json := build_payload user_message;
     post_headers := build_headers (api_key_of w);
     post_timeout := REQUEST_TIMEOUT_SECONDS |}.

(** The events of a run up to the end of validation. *)
Definition validation_events : list event :=
  [EGetenv (py "OPENROUTER_API_KEY"); EGetJson].

(** The same world with another request body. *)
Definition with_body (w : World) (data : value) : World :=
  {| environ := environ w;
     get_json_silent := inr data;
     upstream := upstream w |}.

(** The five checks of the validation phase, in the order of the source:
    Guard 1, Guard 2, the two halves of Guard 3, Guard 4. *)
Inductive check :=
| ApiKeyConfigured
| BodyIsJson
| MessageIsString
| MessageNonEmpty
| LengthWithinLimit.

Definition check_order : list check :=
  [ApiKeyConfigured; BodyIsJson; MessageIsString; MessageNonEmpty;
   LengthWithinLimit].

(** The checks as the specification words them, each taken alone on a
    request.  They are written from the words, not from the guards:
    check 1, an API key is configured; check 2, the request body parses
    as a JSON object; check 3, the [message] field, if present, is a
    string (a missing field defaults to the empty string); check 4, the
    trimmed message is not empty; check 5, its length is within the
    limit. *)
Definition spec_body (w : World) : option (gmap str value) :=
  match get_json_silent w with
  | inr (VDict d) => Some d
  | _ => None
  end.

Definition spec_message (w : World) : option value :=
  d ← spec_body w; d !! py "message".

Definition spec_trimmed (w : World) : str :=
  match spec_message w with
  | Some (VStr s) => strip s
  | _ => []
  end.

Definition spec_check (c : check) (w : World) : bool :=
  match c with
  | ApiKeyConfigured =>
      match environ w !! py "OPENROUTER_API_KEY" with
      | Some (_ :: _) => true
      | _ => false
      end
  | BodyIsJson =>
      match spec_body w with Some _ => true | None => false end
  | MessageIsString =>
      match spec_message w with
      | None | Some (VStr _) => true
      | Some _ => false
      end
  | MessageNonEmpty => (0 <? len (spec_trimmed w))
  | LengthWithinLimit => (len (spec_trimmed w) <=? 2000)
  end.

(** The first check of [check_order] that fails, if any does. *)
Definition spec_first_failing (w : World) : option check :=
  find (fun c => negb (spec_check c w)) check_order.

(** The requests on which Guard 2, a truth-value test, answers as the
    object test of check 2 does: [get_json] returns, and what it returns
    is true exactly when it is an object. *)
Definition body_guard_agrees (w : World) : Prop :=
  match get_json_silent w with
  | inr data => truthy data = match data with VDict _ => true | _ => false end
  | inl _ => False
  end.

(** The response of the guard that implements a check. *)
Definition check_response (c : check) : response :=
  match c with
  | ApiKeyConfigured =>
      (error_body (py "Server configuration error: API key is missing."), 500)
  | BodyIsJson => (error_body (py "Request body must be JSON."), 400)
  | MessageIsString =>
      (error_body (py "The 'message' field must be a string."), 400)
  | MessageNonEmpty => (error_body (py "Message cannot be empty."), 400)
  | LengthWithinLimit =>
      (error_body (py "Message exceeds the 2000-character limit."), 400)
  end.

(** The value at [choices[0].message.content] of a response body, as the
    [try:] block reaches it. *)
Definition reply_content_of (r : Response) : exn + value :=
  match json_result r with
  | inl e => inl e
  | inr result =>
    match getitem result (KStr (py "choices")) with
    | inl e => inl e
    | inr choices =>
      match getitem choices (KInt 0) with
      | inl e => inl e
      | inr choice =>
        match getitem choice (KStr (py "message")) with
        | inl e => inl e
        | inr message => getitem message (KStr (py "content"))
        end
      end
    end
  end.

(** The reply text: that value, stripped. *)
Definition reply_text_of (r : Response) : exn + str :=
  match reply_content_of r with
  | inl e => inl e
  | inr content => method_strip content
  end.

(** The message of the [if not response.ok:] branch for a status code. *)
Definition upstream_error_message (status : Z) : str :=
  if status =? 429 then
    py "API rate limit reached. Please wait a moment and try again."
  else if (status =? 401) || (status =? 403) then
    py "API key is invalid or unauthorised."
  else
    py "AI service returned an error (HTTP " ++ str_of_int status ++ py ").".

(** The log record that marks the [if not response.ok:] branch. *)
Definition http_error_logged (t : list event) : Prop :=
  exists args,
    In (ELog ERROR (py "OpenRouter returned HTTP %s: %s") args) t.

(** ** Sample worlds *)

Definition key_env (k : str) : gmap str str :=
  {[ py "OPENROUTER_API_KEY" := k ]}.

(** A body [{"message": m}]. *)
Definition message_body (m : value) : value :=
  VDict (dict [(py "message", m)]).

(** A completion [{"choices": [{"message": {"content": c}}]}]. *)
Definition completion (content : value) : value :=
  VDict (dict [(py "choices", VList [
    VDict (dict [(py "message", VDict (dict [(py "content", content)]))])
  ])]).

(** A response with the given status whose body is the given JSON value.
    The spelling of the body is elided: [text] only reaches the log. *)
Definition json_response (status : Z) (v : value) : Response :=
  {| status_code := status; text := py "{...}"; json_result := inr v |}.

(** A server with the key [sk-test], a request body, and an upstream that
    answers every call the same way. *)
Definition stub_world (data : value) (answer : post_result) : World :=
  {| environ := key_env (py "sk-test");
     get_json_silent := inr data;
     upstream := fun _ => answer |}.

(** The same server with no key in its environment. *)
Definition unconfigured_world (data : value) (answer : post_result) : World :=
  {| environ := ∅;
     get_json_silent := inr data;
     upstream := fun _ => answer |}.

(** ** Vocabulary for whole runs *)

(** The log records among the events of a run. *)
Definition logs (t : list event) : list (level * str * list logarg) :=
  omap (fun ev => match ev with
                  | ELog lvl fmt args => Some (lvl, fmt, args)
                  | _ => None
                  end) t.

(** A string that starts, or ends, with whitespace. *)
Definition leading_space (s : str) : bool :=
  match s with c :: _ => isspace c | [] => false end.

Definition trailing_space (s : str) : bool := leading_space (rev s).

(** String arguments of a log record are excerpts of bounded length. *)
Definition excerpts_within (n : Z) (args : list logarg) : Prop :=
  Forall (fun a => match a with LStr s => len s <= n | _ => True end) args.

(** The messages [chat] can put in an error body, the one that names an
    upstream status code apart. *)
Definition fixed_error_messages : list str :=
  [py "Server configuration error: API key is missing.";
   py "Request body must be JSON.";
   py "The 'message' field must be a string.";
   py "Message cannot be empty.";
   py "Message exceeds the 2000-character limit.";
   py "The AI service took too long to respond. Please try again.";
   py "Could not reach the AI service. Check your internet connection.";
   py "API rate limit reached. Please wait a moment and try again.";
   py "API key is invalid or unauthorised.";
   py "Received an unexpected response from the AI service.";
   py "The AI returned an empty response. Please try rephrasing."].

(** The ways a run of [chat] ends: what it hands back and the events it
    leaves, path by path.  [chat_ends_run] below shows that every run is
    one of these. *)
Inductive chat_ends (w : World) : flow Empty_set -> list event -> Prop :=
| EndsNoKey :
    api_key_configured w = false ->
    chat_ends w (Return (check_response ApiKeyConfigured))
      [EGetenv (py "OPENROUTER_API_KEY");
       ELog ERROR (py "OPENROUTER_API_KEY is not set in the environment.") []]
| EndsGetJsonRaises e :
    api_key_configured w = true ->
    get_json_silent w = inl e ->
    chat_ends w (Raise e) validation_events
| EndsGuard c :
    api_key_configured w = true ->
    validated_message w = None ->
    c <> ApiKeyConfigured ->
    chat_ends w (Return (check_response c)) validation_events
| EndsNoGetMethod :
    api_key_configured w = true ->
    truthy (request_json w) = true ->
    validated_message w = None ->
    message_field w = inl AttributeError ->
    chat_ends w (Raise AttributeError) validation_events
| EndsTimeout m e :
    validated_message w = Some m ->
    upstream w (upstream_call w m) = PostRaises e ->
    issubclass e Timeout = true ->
    chat_ends w
      (Return (error_body (py
         "The AI service took too long to respond. Please try again."), 504))
      (validation_events ++
       [EPost (upstream_call w m);
        ELog WARNING (py "OpenRouter request timed out after %ds.")
             [LInt REQUEST_TIMEOUT_SECONDS]])
| EndsUnreachable m e :
    validated_message w = Some m ->
    upstream w (upstream_call w m) = PostRaises e ->
    issubclass e Timeout = false ->
    issubclass e ConnectionError = true ->
    chat_ends w
      (Return (error_body (py
         "Could not reach the AI service. Check your internet connection."),
         502))
      (validation_events ++
       [EPost (upstream_call w m);
        ELog ERROR (py "Connection error reaching OpenRouter: %s") [LExc e]])
| EndsPostRaises m e :
    validated_message w = Some m ->
    upstream w (upstream_call w m) = PostRaises e ->
    issubclass e Timeout = false ->
    issubclass e ConnectionError = false ->
    chat_ends w (Raise e) (validation_events ++ [EPost (upstream_call w m)])
| EndsHttpError m r :
    validated_message w = Some m ->
    upstream w (upstream_call w m) = PostReturns r ->
    ok r = false ->
    chat_ends w
      (Return (error_body (upstream_error_message (status_code r)), 502))
      (validation_events ++
       [EPost (upstream_call w m);
        ELog ERROR (py "OpenRouter returned HTTP %s: %s")
             [LInt (status_code r); LStr (take 400 (text r))]])
| EndsExtractRaises m r e :
    validated_message w = Some m ->
    upstream w (upstream_call w m) = PostReturns r ->
    ok r = true ->
    json_result r = inl e ->
    isinstance_exn e [KeyError; IndexError; ValueError; TypeError] = false ->
    chat_ends w (Raise e) (validation_events ++ [EPost (upstream_call w m)])
| EndsUnexpected m r e :
    validated_message w = Some m ->
    upstream w (upstream_call w m) = PostReturns r ->
    ok r = true ->
    reply_content_of r = inl e ->
    isinstance_exn e [KeyError; IndexError; ValueError; TypeError] = true ->
    chat_ends w
      (Return (error_body (py
         "Received an unexpected response from the AI service."), 502))
      (validation_events ++
       [EPost (upstream_call w m);
        ELog ERROR
          (py "Unexpected OpenRouter response structure: %s | body: %s")
          [LExc e; LStr (take 400 (text r))]])
| EndsStripRaises m r content :
    validated_message w = Some m ->
    upstream w (upstream_call w m) = PostReturns r ->
    ok r = true ->
    reply_content_of r = inr content ->
    isinstance_str content = false ->
    chat_ends w (Raise AttributeError)
      (validation_events ++ [EPost (upstream_call w m)])
| EndsEmptyReply m r content :
    validated_message w = Some m ->
    upstream w (upstream_call w m) = PostReturns r ->
    ok r = true ->
    reply_content_of r = inr (VStr content) ->
    strip content = [] ->
    chat_ends w
      (Return (error_body (py
         "The AI returned an empty response. Please try rephrasing."), 502))
      (validation_events ++
       [EPost (upstream_call w m);
        ELog WARNING (py "OpenRouter returned an empty reply for message: %r")
             [LStr (take 80 m)]])
| EndsReply m r content :
    validated_message w = Some m ->
    upstream w (upstream_call w m) = PostReturns r ->
    ok r = true ->
    reply_content_of r = inr (VStr content) ->
    strip content <> [] ->
    chat_ends w
      (Return (jsonify (dict [(py "reply", VStr (strip content))]), 200))
      (validation_events ++
       [EPost (upstream_call w m);
        ELog INFO (py "Chat OK — user msg: %d chars, reply: %d chars")
             [LInt (len m); LInt (len (strip content))]]).

(** ** The validation phase *)

Arguments py : simpl never.

(** Two string literals differ. *)
Ltac key_neq :=
  let H := fresh in intros H; vm_compute in H; discriminate H.

(** Unfolds the monadic plumbing, leaving the guards of the handler. *)
Ltac mstep :=
  cbv [mbind M_bind mret M_ret emit return_ raise lift try_except
       os_getenv request_get_json requests_post response_json
       logger_error logger_warning logger_info];
  cbn beta iota zeta.

Lemma length_limit_message :
  py "Message exceeds the " ++ str_of_int MAX_MESSAGE_LENGTH
    ++ py "-character limit."
  = py "Message exceeds the 2000-character limit.".
Proof. vm_compute. reflexivity. Qed.

(** The guards, one by one: what [chat] does from any log [t] when a
    guard fires, given that the guards before it did not. *)
Section Guards.
Variable w : World.
Variable t : list event.

Lemma chat_without_key :
  api_key_configured w = false ->
  chat w t =
    (Return (check_response ApiKeyConfigured),
     t ++ [EGetenv (py "OPENROUTER_API_KEY");
           ELog ERROR
             (py "OPENROUTER_API_KEY is not set in the environment.") []]).
Proof.
  unfold api_key_configured, api_key_of. intros H.
  unfold chat. mstep. rewrite H. cbn [negb]. now rewrite <- app_assoc.
Qed.

Section Configured.
Hypothesis Hkey : api_key_configured w = true.

Lemma chat_get_json_raises e :
  get_json_silent w = inl e ->
  chat w t = (Raise e, t ++ validation_events).
Proof.
  pose proof Hkey as Hk. unfold api_key_configured, api_key_of in Hk.
  intros He. unfold chat. mstep. rewrite Hk. cbn [negb]. rewrite He.
  now rewrite <- app_assoc.
Qed.

Lemma chat_falsy_body data :
  get_json_silent w = inr data ->
  truthy data = false ->
  chat w t = (Return (check_response BodyIsJson), t ++ validation_events).
Proof.
  pose proof Hkey as Hk. unfold api_key_configured, api_key_of in Hk.
  intros Hp Hd. unfold chat. mstep. rewrite Hk. cbn [negb].
  rewrite Hp, Hd. cbn [negb]. now rewrite <- app_assoc.
Qed.

Section TruthyBody.
Hypothesis Hbody : truthy (request_json w) = true.

(** Guards 1 and 2 are behind: the handler reads the field. *)
Lemma chat_reads_message :
  chat w t =
    (user_message ← lift (message_field w);
     if negb (isinstance_str user_message) then
       return_ (check_response MessageIsString)
     else
     user_message ← lift (method_strip user_message);
     if negb (str_truthy user_message) then
       return_ (check_response MessageNonEmpty)
     else
     if MAX_MESSAGE_LENGTH <? len user_message then
       return_ (check_response LengthWithinLimit)
     else
     response ← try_except
       (requests_post w (upstream_call w user_message)) post_handlers;
     if negb (ok response) then chat_upstream_error response
     else chat_reply user_message response)
      (t ++ validation_events).
Proof.
  pose proof Hkey as Hk. unfold api_key_configured, api_key_of in Hk.
  pose proof Hbody as Hb. unfold request_json in Hb.
  unfold chat, message_field, request_json, upstream_call, api_key_of,
    validation_events.
  cbn [check_response]. rewrite <- length_limit_message.
  mstep. rewrite Hk. cbn [negb].
  destruct (get_json_silent w) as [e|data]; [discriminate Hb|].
  rewrite Hb. cbn [negb]. now rewrite <- app_assoc.
Qed.

Lemma chat_no_get_method e :
  message_field w = inl e ->
  chat w t = (Raise e, t ++ validation_events).
Proof. intros Hm. rewrite chat_reads_message. mstep. now rewrite Hm. Qed.

Lemma chat_message_not_str m :
  message_field w = inr m ->
  isinstance_str m = false ->
  chat w t =
    (Return (check_response MessageIsString), t ++ validation_events).
Proof.
  intros Hm Hs. rewrite chat_reads_message. mstep.
  now rewrite Hm, Hs.
Qed.

Lemma chat_message_empty raw :
  message_field w = inr (VStr raw) ->
  str_truthy (strip raw) = false ->
  chat w t =
    (Return (check_response MessageNonEmpty), t ++ validation_events).
Proof.
  intros Hm Hs. rewrite chat_reads_message. mstep. rewrite Hm.
  cbn [isinstance_str negb method_strip]. now rewrite Hs.
Qed.

Lemma chat_message_too_long raw :
  message_field w = inr (VStr raw) ->
  str_truthy (strip raw) = true ->
  (MAX_MESSAGE_LENGTH <? len (strip raw)) = true ->
  chat w t =
    (Return (check_response LengthWithinLimit), t ++ validation_events).
Proof.
  intros Hm Hs Hl. rewrite chat_reads_message. mstep. rewrite Hm.
  cbn [isinstance_str negb method_strip]. rewrite Hs. cbn [negb].
  now rewrite Hl.
Qed.
End TruthyBody.
End Configured.
End Guards.

(** A validated request reaches the one upstream call. *)
Lemma chat_validated w m t :
  validated_message w = Some m ->
  let t' := t ++ validation_events ++ [EPost (upstream_call w m)] in
  chat w t =
    match upstream w (upstream_call w m) with
    | PostRaises e =>
        if isinstance_exn e [Timeout] then
          (Return (error_body (py
             "The AI service took too long to respond. Please try again."),
             504),
           t' ++ [ELog WARNING (py "OpenRouter request timed out after %ds.")
                       [LInt REQUEST_TIMEOUT_SECONDS]])
        else if isinstance_exn e [ConnectionError] then
          (Return (error_body (py
             "Could not reach the AI service. Check your internet connection."),
             502),
           t' ++ [ELog ERROR (py "Connection error reaching OpenRouter: %s")
                       [LExc e]])
        else (Raise e, t')
    | PostReturns r =>
        (if ok r then chat_reply m r else chat_upstream_error r) t'
    end.
Proof.
  unfold validated_message. intros H.
  destruct (api_key_configured w) eqn:Hk; [|discriminate].
  destruct (truthy _) eqn:Hd; [|discriminate]. cbn [andb] in H.
  destruct (message_field w) as [e|[| | | |raw| |]] eqn:Hm;
    try discriminate.
  destruct (str_truthy _) eqn:Hs; [|discriminate].
  destruct (_ <? _) eqn:Hl; [discriminate|]. cbn in H. injection H as <-.
  rewrite (chat_reads_message w t Hk Hd). mstep. rewrite Hm.
  cbn [isinstance_str negb method_strip]. rewrite Hs. cbn [negb]. rewrite Hl.
  rewrite <- !app_assoc.
  destruct (upstream w _) as [e|r].
  - unfold post_handlers. mstep.
    destruct (isinstance_exn e [Timeout]);
      [now rewrite <- !app_assoc|].
    destruct (isinstance_exn e [ConnectionError]);
      [now rewrite <- !app_assoc|reflexivity].
  - destruct (ok r); reflexivity.
Qed.

(** ** The upstream phase *)

Lemma chat_upstream_error_run r t :
  chat_upstream_error r t =
    (Return (error_body (upstream_error_message (status_code r)), 502),
     t ++ [ELog ERROR (py "OpenRouter returned HTTP %s: %s")
                [LInt (status_code r); LStr (take 400 (text r))]]).
Proof.
  unfold chat_upstream_error, upstream_error_message. mstep.
  destruct (status_code r =? 429); [reflexivity|].
  destruct ((status_code r =? 401) || (status_code r =? 403)); reflexivity.
Qed.

Lemma extract_reply_text_run r t :
  extract_reply_text r t = lift (reply_text_of r) t.
Proof.
  unfold extract_reply_text, reply_text_of, reply_content_of. mstep.
  destruct (json_result r) as [e|v]; [reflexivity|].
  destruct (getitem v _) as [e|choices]; [reflexivity|].
  destruct (getitem choices _) as [e|choice]; [reflexivity|].
  destruct (getitem choice _) as [e|message]; [reflexivity|].
  destruct (getitem message _) as [e|content]; [reflexivity|].
  destruct (method_strip content); reflexivity.
Qed.

Lemma chat_reply_run m r t :
  chat_reply m r t =
    match reply_text_of r with
    | inl e =>
        if isinstance_exn e [KeyError; IndexError; ValueError; TypeError]
        then
          (Return (error_body (py
             "Received an unexpected response from the AI service."), 502),
           t ++ [ELog ERROR
                   (py "Unexpected OpenRouter response structure: %s | body: %s")
                   [LExc e; LStr (take 400 (text r))]])
        else (Raise e, t)
    | inr reply_text =>
        if str_truthy reply_text then
          (Return (jsonify (dict [(py "reply", VStr reply_text)]), 200),
           t ++ [ELog INFO (py "Chat OK — user msg: %d chars, reply: %d chars")
                   [LInt (len m); LInt (len reply_text)]])
        else
          (Return (error_body (py
             "The AI returned an empty response. Please try rephrasing."), 502),
           t ++ [ELog WARNING
                   (py "OpenRouter returned an empty reply for message: %r")
                   [LStr (take 80 m)]])
    end.
Proof.
  unfold chat_reply.
  cbv [mbind M_bind try_except]. cbn beta iota.
  rewrite extract_reply_text_run.
  destruct (reply_text_of r) as [e|s]; mstep.
  - destruct (isinstance_exn e _); reflexivity.
  - destruct (str_truthy s); reflexivity.
Qed.

Lemma getitem_raises obj k e :
  getitem obj k = inl e -> e = KeyError \/ e = IndexError \/ e = TypeError.
Proof.
  destruct obj, k; cbn; intros H; repeat case_match; naive_solver.
Qed.

(** On the way to [content], either [.json()] itself raises, or a
    subscript does; what a subscript raises the [except] clause catches. *)
Lemma reply_content_raises r e :
  reply_content_of r = inl e ->
  json_result r = inl e
  \/ ((exists v, json_result r = inr v)
      /\ isinstance_exn e [KeyError; IndexError; ValueError; TypeError]
         = true).
Proof.
  unfold reply_content_of. intros H.
  destruct (json_result r) as [e'|v]; [left; congruence|]. right.
  split; [eauto|].
  assert (e = KeyError \/ e = IndexError \/ e = TypeError) as He.
  { repeat case_match; try discriminate;
      first [ injection H as <-; eauto using getitem_raises
            | eauto using getitem_raises ]. }
  destruct He as [->|[->| ->]]; reflexivity.
Qed.

Lemma reply_content_raises_caught r v e :
  json_result r = inr v ->
  reply_content_of r = inl e ->
  isinstance_exn e [KeyError; IndexError; ValueError; TypeError] = true.
Proof.
  intros Hv H. destruct (reply_content_raises r e H) as [Hj|[_ Hc]];
    [congruence|exact Hc].
Qed.

(** Only [strip] on a value that is no string escapes the [except]. *)
Lemma reply_text_raises r e :
  reply_text_of r = inl e ->
  reply_content_of r = inl e
  \/ (e = AttributeError
      /\ exists c, reply_content_of r = inr c /\ isinstance_str c = false).
Proof.
  unfold reply_text_of. destruct (reply_content_of r) as [e'|c].
  - intros [= ->]. now left.
  - destruct c; cbn; intros [= <-]; right; eauto.
Qed.

(** ** Runs *)

Lemma run_return (m : M Empty_set) r t :
  m [] = (Return r, t) -> result m = Returned r /\ events m = t.
Proof. unfold result, events, run. now intros ->. Qed.

Lemma run_raise (m : M Empty_set) e t :
  m [] = (Raise e, t) -> result m = Raised e /\ events m = t.
Proof. unfold result, events, run. now intros ->. Qed.

Lemma posts_app t1 t2 : posts (t1 ++ t2) = posts t1 ++ posts t2.
Proof. apply omap_app. Qed.

Lemma chat_reply_posts m r t : posts (snd (chat_reply m r t)) = posts t.
Proof.
  rewrite chat_reply_run.
  destruct (reply_text_of r) as [e|s];
    [destruct (isinstance_exn e _)|destruct (str_truthy s)]; cbn [snd];
    rewrite ?posts_app; cbn; now rewrite ?app_nil_r.
Qed.

Lemma chat_upstream_error_posts r t :
  posts (snd (chat_upstream_error r t)) = posts t.
Proof.
  rewrite chat_upstream_error_run. cbn [snd].
  rewrite posts_app. cbn. now rewrite app_nil_r.
Qed.

Lemma events_snd (m : M Empty_set) : events m = snd (m []).
Proof. unfold events, run. now destruct (m []) as [[[]|r|e] t]. Qed.

(** A validated request makes exactly the one call; its events are the
    validation events, the call, and at most one log record. *)
Lemma chat_validated_posts w m :
  validated_message w = Some m ->
  posts (events (chat w)) = [upstream_call w m].
Proof.
  intros H. rewrite events_snd, (chat_validated w m [] H). cbn zeta.
  destruct (upstream w _) as [e|r].
  - destruct (isinstance_exn e [Timeout]);
      [|destruct (isinstance_exn e [ConnectionError])]; cbn [snd];
      rewrite ?posts_app; reflexivity.
  - destruct (ok r);
      [rewrite chat_reply_posts|rewrite chat_upstream_error_posts];
      reflexivity.
Qed.

Lemma validated_message_inv w m :
  validated_message w = Some m ->
  api_key_configured w = true
  /\ truthy (request_json w) = true
  /\ (exists raw, message_field w = inr (VStr raw) /\ m = strip raw)
  /\ str_truthy m = true
  /\ len m <= MAX_MESSAGE_LENGTH.
Proof.
  unfold validated_message. intros H.
  destruct (api_key_configured w); [|discriminate].
  destruct (truthy _); [|discriminate]. cbn [andb] in H.
  destruct (message_field w) as [e|[| | | |raw| |]]; try discriminate.
  destruct (str_truthy _) eqn:Hs; [|discriminate].
  destruct (_ <? _) eqn:Hl; [discriminate|]. cbn in H. injection H as <-.
  repeat split; eauto. apply Z.ltb_ge in Hl. exact Hl.
Qed.

(** A dictionary that holds a key is truthy. *)
Lemma truthy_dict_lookup (d : gmap str value) k v :
  d !! k = Some v -> truthy (VDict d) = true.
Proof.
  intros H. cbn. apply negb_true_iff, bool_decide_eq_false.
  intros ->. now rewrite lookup_empty in H.
Qed.

Lemma str_truthy_len s : 0 < len s -> str_truthy s = true.
Proof. destruct s; [unfold len; cbn; lia|reflexivity]. Qed.

(** ** The health route *)

(** C10: every [/health] call returns 200 with the three fields [status],
    [model] and a boolean [api_key_configured]; the body is a function of
    that boolean alone, so for any two environments (any two key values,
    or none) the bodies agree on everything but the flag. *)
Theorem health_reveals_only_flag (w w' : World) :
  result (health w) =
    Returned (jsonify (dict [
      (py "status", VStr (py "ok"));
      (py "model", VStr MODEL_ID);
      (py "api_key_configured", VBool (api_key_configured w))
    ]), 200)
  /\ posts (events (health w)) = []
  /\ exists d d',
       result (health w) = Returned (VDict d, 200)
       /\ result (health w') = Returned (VDict d', 200)
       /\ delete (py "api_key_configured") d
          = delete (py "api_key_configured") d'.
Proof.
  split; [reflexivity|]. split; [reflexivity|].
  eexists _, _. split; [reflexivity|]. split; [reflexivity|].
  unfold dict. cbn [list_to_map foldr uncurry]. unfold uncurry; cbn [fst snd].
  rewrite !(delete_insert_ne _ (py "api_key_configured")) by key_neq.
  now rewrite !delete_insert_eq.
Qed.

(** ** The validation phase of [/chat] *)



Lemma spec_check_key w :
  spec_check ApiKeyConfigured w = api_key_configured w.
Proof.
  unfold api_key_configured, api_key_of. cbn.
  now destruct (environ w !! py "OPENROUTER_API_KEY") as [[|]|].
Qed.

Lemma strip_nil : strip [] = [].
Proof. reflexivity. Qed.

Lemma len_pos_truthy s : (0 <? len s) = str_truthy s.
Proof.
  destruct s; [reflexivity|]. unfold len. cbn [length str_truthy].
  apply Z.ltb_lt. lia.
Qed.

Lemma len_within_limit s :
  (len s <=? 2000) = negb (MAX_MESSAGE_LENGTH <? len s).
Proof.
  unfold MAX_MESSAGE_LENGTH.
  destruct (Z.leb_spec (len s) 2000), (Z.ltb_spec 2000 (len s));
    cbn; lia || reflexivity.
Qed.

(** Where Guard 2 answers as the object test does, the handler does what
    the ordered checks of the specification say: the first of them that
    fails decides the response, and nothing is sent upstream. *)
Lemma chat_first_failing_spec_check (w : World) (c : check) :
  body_guard_agrees w ->
  spec_first_failing w = Some c ->
  result (chat w) = Returned (check_response c)
  /\ snd (check_response c)
     = match c with ApiKeyConfigured => 500 | _ => 400 end
  /\ posts (events (chat w)) = [].
Proof.
  unfold body_guard_agrees. intros Hag Hff.
  destruct (get_json_silent w) as [e|data] eqn:Hp; [contradiction|].
  unfold spec_first_failing, check_order in Hff. cbn [find] in Hff.
  rewrite spec_check_key in Hff.
  destruct (api_key_configured w) eqn:Hk; cbn [negb] in Hff.
  2:{ injection Hff as <-.
      destruct (run_return _ _ _ (chat_without_key w [] Hk)) as [-> ->].
      repeat split. }
  cbn [spec_check] in Hff.
  unfold spec_trimmed, spec_message, spec_body in Hff. rewrite Hp in Hff.
  assert (request_json w = data) as Hrj by (unfold request_json; now rewrite Hp).
  destruct data as [| | | | | |d];
    try (cbn in Hff; injection Hff as <-;
         destruct (run_return _ _ _ (chat_falsy_body w [] Hk _ Hp Hag))
           as [-> ->];
         repeat split).
  cbn [mbind option_bind negb] in Hff.
  assert (truthy (request_json w) = true) as Hd by now rewrite Hrj.
  assert (message_field w
          = inr (match d !! py "message" with
                 | Some v => v
                 | None => VStr (py "")
                 end)) as Hm.
  { unfold message_field. now rewrite Hrj. }
  destruct (d !! py "message") as [v|] eqn:Hv.
  - destruct (isinstance_str v) eqn:Hi.
    2:{ assert (c = MessageIsString) as ->
          by (destruct v; try discriminate Hi; cbn in Hff; congruence).
        destruct (run_return _ _ _
                    (chat_message_not_str w [] Hk Hd v Hm Hi)) as [-> ->].
        repeat split. }
    destruct v as [| | | |raw| |]; try discriminate Hi.
    cbn [negb] in Hff. rewrite len_pos_truthy, len_within_limit in Hff.
    destruct (str_truthy (strip raw)) eqn:Hs; cbn [negb] in Hff.
    2:{ injection Hff as <-.
        destruct (run_return _ _ _
                    (chat_message_empty w [] Hk Hd raw Hm Hs)) as [-> ->].
        repeat split. }
    destruct (MAX_MESSAGE_LENGTH <? len (strip raw)) eqn:Hl;
      cbn [negb] in Hff; [|discriminate Hff].
    injection Hff as <-.
    destruct (run_return _ _ _
                (chat_message_too_long w [] Hk Hd raw Hm Hs Hl)) as [-> ->].
    repeat split.
  - cbn in Hff. injection Hff as <-.
    destruct (run_return _ _ _
                (chat_message_empty w [] Hk Hd (py "") Hm eq_refl))
      as [-> ->].
    repeat split.
Qed.

(** C2: on two requests the response is not the one of the first failing
    check.  For the body [[1]] the first check to fail is the body check
    (an array is no JSON object), yet the handler returns no 400: it
    raises [AttributeError].  For the body [{}] the body check passes and
    the first check to fail is the emptiness check, yet the response is
    the one of the body check. *)
Theorem chat_misses_first_failing_check :
  let array := stub_world (VList [VInt 1]) (PostRaises Timeout) in
  let empty := stub_world (VDict ∅) (PostRaises Timeout) in
  spec_first_failing array = Some BodyIsJson
  /\ result (chat array) = Raised AttributeError
  /\ spec_first_failing empty = Some MessageNonEmpty
  /\ result (chat empty) = Returned (check_response BodyIsJson)
  /\ check_response BodyIsJson <> check_response MessageNonEmpty.
Proof.
  cbn zeta. split; [vm_compute; reflexivity|].
  split; [vm_compute; reflexivity|]. split; [vm_compute; reflexivity|].
  split; [vm_compute; reflexivity|].
  intros H. vm_compute in H. discriminate H.
Qed.

(** C6, amended: a message whose trimmed form is longer than 2000
    characters, sent to a server with the API key configured, is answered
    with 400 and no upstream call. *)
Theorem chat_rejects_long_trimmed_message
    (w : World) (d : gmap str value) (raw : str) :
  api_key_configured w = true ->
  request_json w = VDict d ->
  d !! py "message" = Some (VStr raw) ->
  MAX_MESSAGE_LENGTH < len (strip raw) ->
  result (chat w) =
    Returned (error_body (py "Message exceeds the 2000-character limit."), 400)
  /\ posts (events (chat w)) = [].
Proof.
  intros Hk Hd Hm Hl.
  assert (truthy (request_json w) = true) as Ht.
  { rewrite Hd. eapply truthy_dict_lookup, Hm. }
  assert (message_field w = inr (VStr raw)) as Hf.
  { unfold message_field. rewrite Hd. cbn. now rewrite Hm. }
  assert (str_truthy (strip raw) = true) as Hs.
  { apply str_truthy_len. unfold MAX_MESSAGE_LENGTH in Hl. lia. }
  apply Z.ltb_lt in Hl.
  destruct (run_return _ _ _ (chat_message_too_long w [] Hk Ht raw Hf Hs Hl))
    as [-> ->].
  split; reflexivity.
Qed.

Lemma chat_rejects_long_trimmed_message_witness :
  result (chat (stub_world (message_body (VStr (repeat 97%N 2001)))
                           (PostRaises Timeout))) =
    Returned (error_body (py "Message exceeds the 2000-character limit."), 400)
  /\ posts (events (chat (stub_world (message_body (VStr (repeat 97%N 2001)))
                                     (PostRaises Timeout)))) = [].
Proof.
  apply (chat_rejects_long_trimmed_message
           (stub_world (message_body (VStr (repeat 97%N 2001)))
                       (PostRaises Timeout))
           (dict [(py "message", VStr (repeat 97%N 2001))])
           (repeat 97%N 2001)).
  - vm_compute. reflexivity.
  - reflexivity.
  - vm_compute. reflexivity.
  - vm_compute. reflexivity.
Defined.

(** C6 as the specification words it fails twice over.  A message of 2001
    characters, one letter followed by 2000 spaces, trims to one character:
    it is relayed upstream and answered with 200.  And with no API key any
    message, long or short, is answered with 500, not 400. *)
Lemma chat_relays_long_padded_message :
  let raw := py "a" ++ repeat 32%N 2000 in
  let answer :=
    PostReturns (json_response 200 (completion (VStr (py "hello")))) in
  MAX_MESSAGE_LENGTH < len raw
  /\ result (chat (stub_world (message_body (VStr raw)) answer)) =
       Returned (jsonify (dict [(py "reply", VStr (py "hello"))]), 200)
  /\ length (posts (events
       (chat (stub_world (message_body (VStr raw)) answer)))) = 1%nat
  /\ result (chat (unconfigured_world (message_body (VStr raw)) answer)) =
       Returned (error_body
         (py "Server configuration error: API key is missing."), 500).
Proof. vm_compute. repeat split. Qed.

(** ** The upstream call *)

(** C7: a validated request makes one upstream call, whose payload holds
    the fixed model identifier, a [messages] list of exactly two entries
    (the system prompt verbatim under role [system], then the trimmed user
    message under role [user]), temperature 0.7 and max_tokens 512. *)
#[warnings="-inexact-float"]
Theorem chat_upstream_payload (w : World) (m : str) :
  validated_message w = Some m ->
  (exists raw, message_field w = inr (VStr raw) /\ m = strip raw)
  /\ exists c,
       posts (events (chat w)) = [c]
       /\ post_url c = OPENROUTER_API_URL
       /\ post_timeout c = 30
       /\ post_json c = VDict (dict [
            (py "model", VStr MODEL_ID);
            (py "messages", VList [
               VDict (dict [(py "role", VStr (py "system"));
                            (py "content", VStr SYSTEM_PROMPT)]);
               VDict (dict [(py "role", VStr (py "user"));
                            (py "content", VStr m)])
             ]);
            (py "temperature", VFloat 0.7%float);
            (py "max_tokens", VInt 512)
          ]).
Proof.
  intros H. split; [apply (validated_message_inv w m H)|].
  exists (upstream_call w m). split; [now apply chat_validated_posts|].
  repeat split.
Qed.

#[warnings="-inexact-float"]
Lemma chat_upstream_payload_witness :
  let w := stub_world (message_body (VStr (py "  what is pi  ")))
                      (PostRaises Timeout) in
  let m := py "what is pi" in
  (exists raw, message_field w = inr (VStr raw) /\ m = strip raw)
  /\ exists c,
       posts (events (chat w)) = [c]
       /\ post_url c = OPENROUTER_API_URL
       /\ post_timeout c = 30
       /\ post_json c = VDict (dict [
            (py "model", VStr MODEL_ID);
            (py "messages", VList [
               VDict (dict [(py "role", VStr (py "system"));
                            (py "content", VStr SYSTEM_PROMPT)]);
               VDict (dict [(py "role", VStr (py "user"));
                            (py "content", VStr m)])
             ]);
            (py "temperature", VFloat 0.7%float);
            (py "max_tokens", VInt 512)
          ]).
Proof.
  apply (chat_upstream_payload
           (stub_world (message_body (VStr (py "  what is pi  ")))
                       (PostRaises Timeout))
           (py "what is pi")).
  vm_compute. reflexivity.
Defined.

(** ** Classification of the upstream answer *)

Lemma ok_false_iff r : ok r = false <-> 400 <= status_code r < 600.
Proof.
  unfold ok. rewrite negb_false_iff, andb_true_iff, Z.leb_le, Z.ltb_lt.
  reflexivity.
Qed.

Lemma validation_events_no_http_error c :
  ~ http_error_logged (validation_events ++ [EPost c]).
Proof.
  intros [args H]. cbn in H.
  destruct H as [H|[H|[H|[]]]]; discriminate H.
Qed.

Lemma chat_reply_no_http_error m r t :
  ~ http_error_logged t -> ~ http_error_logged (snd (chat_reply m r t)).
Proof.
  intros Ht [args H]. apply Ht. exists args.
  rewrite chat_reply_run in H.
  destruct (reply_text_of r) as [e|s];
    [destruct (isinstance_exn e _)|destruct (str_truthy s)];
    cbn [snd] in H; try exact H;
    apply in_app_or in H; destruct H as [H|[H|[]]]; try exact H;
    discriminate H.
Qed.

(** C9, amended: an upstream response goes to the error-classification
    branch exactly when its status code lies in 400..599, the range for
    which [Response.ok] is false; there the answer is 502 with the message
    for that code.  Every other status code, 200..399 and also codes of 600
    and above, is treated as success: the run continues with the extraction
    of the reply text. *)
Theorem chat_error_branch_iff (w : World) (m : str) (r : Response) :
  validated_message w = Some m ->
  upstream w (upstream_call w m) = PostReturns r ->
  (http_error_logged (events (chat w)) <-> 400 <= status_code r < 600)
  /\ (400 <= status_code r < 600 ->
      result (chat w) =
        Returned (error_body (upstream_error_message (status_code r)), 502))
  /\ (~ 400 <= status_code r < 600 ->
      chat w [] =
        chat_reply m r (validation_events ++ [EPost (upstream_call w m)])).
Proof.
  intros Hv Hu.
  pose proof (chat_validated w m [] Hv) as Hrun. cbn zeta in Hrun.
  rewrite Hu in Hrun. cbn [app] in Hrun.
  destruct (ok r) eqn:Hok.
  - assert (~ 400 <= status_code r < 600) as Hout.
    { intros H. apply ok_false_iff in H. congruence. }
    split; [split|split].
    + intros Hlog. exfalso. rewrite events_snd, Hrun in Hlog.
      eapply chat_reply_no_http_error, Hlog.
      apply validation_events_no_http_error.
    + intros H. now apply Hout in H.
    + intros H. now apply Hout in H.
    + intros _. exact Hrun.
  - pose proof (proj1 (ok_false_iff r) Hok) as Hin.
    rewrite chat_upstream_error_run in Hrun.
    destruct (run_return _ _ _ Hrun) as [-> ->].
    split; [split|split].
    + intros _. exact Hin.
    + intros _. eexists. apply in_or_app. right. now left.
    + reflexivity.
    + intros H. now apply H in Hin.
Qed.

Lemma chat_error_branch_iff_witness :
  let r := json_response 503 (VDict ∅) in
  let w := stub_world (message_body (VStr (py "hi"))) (PostReturns r) in
  result (chat w) =
    Returned (error_body (upstream_error_message (status_code r)), 502).
Proof.
  refine (proj1 (proj2 (chat_error_branch_iff
    (stub_world (message_body (VStr (py "hi")))
                (PostReturns (json_response 503 (VDict ∅))))
    (py "hi") (json_response 503 (VDict ∅)) _ _)) _).
  - vm_compute. reflexivity.
  - reflexivity.
  - cbn. lia.
Defined.

(** C9 as worded fails at status 600: the code is 400 or greater, yet the
    response is treated as success and its reply is returned with 200. *)
Lemma chat_status_600_is_success :
  let r := json_response 600 (completion (VStr (py "hello"))) in
  let w := stub_world (message_body (VStr (py "hi"))) (PostReturns r) in
  400 <= status_code r
  /\ validated_message w = Some (py "hi")
  /\ upstream w (upstream_call w (py "hi")) = PostReturns r
  /\ result (chat w) =
       Returned (jsonify (dict [(py "reply", VStr (py "hello"))]), 200)
  /\ ~ http_error_logged (events (chat w)).
Proof.
  cbn zeta. split; [vm_compute; discriminate|].
  split; [vm_compute; reflexivity|]. split; [reflexivity|].
  split; [vm_compute; reflexivity|].
  intros [args H]. vm_compute in H.
  repeat (destruct H as [H|H]; [discriminate H|]). exact H.
Qed.

(** The result of a validated request, by the answer of the upstream. *)
Lemma chat_validated_result (w : World) (m : str) :
  validated_message w = Some m ->
  match upstream w (upstream_call w m) with
  | PostRaises e =>
      (issubclass e Timeout = true ->
       result (chat w) = Returned (error_body (py
         "The AI service took too long to respond. Please try again."), 504))
      /\ (issubclass e Timeout = false ->
          issubclass e ConnectionError = true ->
          result (chat w) = Returned (error_body (py
            "Could not reach the AI service. Check your internet connection."),
            502))
      /\ (issubclass e Timeout = false ->
          issubclass e ConnectionError = false ->
          result (chat w) = Raised e)
  | PostReturns r =>
      (ok r = false ->
       result (chat w) =
         Returned (error_body (upstream_error_message (status_code r)), 502))
      /\ (ok r = true ->
          match reply_content_of r with
          | inl e =>
              result (chat w) =
                if isinstance_exn e [KeyError; IndexError; ValueError;
                                     TypeError]
                then Returned (error_body (py
                  "Received an unexpected response from the AI service."),
                  502)
                else Raised e
          | inr (VStr s) =>
              result (chat w) =
                if str_truthy (strip s)
                then Returned (jsonify (dict [(py "reply", VStr (strip s))]),
                               200)
                else Returned (error_body (py
                  "The AI returned an empty response. Please try rephrasing."),
                  502)
          | inr _ => result (chat w) = Raised AttributeError
          end)
  end.
Proof.
  intros Hv. pose proof (chat_validated w m [] Hv) as Hrun. cbn zeta in Hrun.
  unfold isinstance_exn in Hrun. cbn [existsb] in Hrun.
  destruct (upstream w _) as [e|r].
  - rewrite !orb_false_r in Hrun.
    repeat split; intros; repeat match goal with
      | H : issubclass _ _ = _ |- _ => rewrite H in Hrun; clear H end.
    + now destruct (run_return _ _ _ Hrun).
    + now destruct (run_return _ _ _ Hrun).
    + now destruct (run_raise _ _ _ Hrun).
  - split; intros Hok; rewrite Hok in Hrun.
    + rewrite chat_upstream_error_run in Hrun.
      now destruct (run_return _ _ _ Hrun).
    + rewrite chat_reply_run in Hrun. unfold reply_text_of in Hrun.
      destruct (reply_content_of r) as [e|c] eqn:Hc.
      * destruct (isinstance_exn e _);
          [now destruct (run_return _ _ _ Hrun)
          |now destruct (run_raise _ _ _ Hrun)].
      * destruct c; cbn [method_strip] in Hrun;
          try (now destruct (run_raise _ _ _ Hrun)).
        destruct (str_truthy (strip s));
          now destruct (run_return _ _ _ Hrun).
Qed.

(** ** Where the handler leaves without a response *)

(** C1: a success response whose [choices[0].message.content] is [null]
    (as OpenAI-compatible services send for tool calls and refusals) has
    the reply-text path, yet the handler produces no classified result at
    all: [None.strip()] raises [AttributeError], which the [except] clause
    around the extraction does not list. *)
Theorem chat_null_content_raises :
  let r := json_response 200 (completion VNone) in
  let w := stub_world (message_body (VStr (py "hello"))) (PostReturns r) in
  validated_message w = Some (py "hello")
  /\ upstream w (upstream_call w (py "hello")) = PostReturns r
  /\ ok r = true
  /\ reply_content_of r = inr VNone
  /\ result (chat w) = Raised AttributeError.
Proof. vm_compute. repeat split. Qed.

(** C4: the body check tests the truth value of the parsed body, not
    whether it is an object.  A JSON array [[1]] is no object, yet passes
    the check, and the handler then raises [AttributeError] on [data.get]
    instead of answering 400; the empty object [{}] is an object, yet is
    answered with "Request body must be JSON.". *)
Theorem chat_json_array_body_raises :
  let w := stub_world (VList [VInt 1]) (PostRaises Timeout) in
  api_key_configured w = true
  /\ result (chat w) = Raised AttributeError
  /\ events (chat w) = validation_events
  /\ result (chat (with_body w (VDict ∅))) =
       Returned (error_body (py "Request body must be JSON."), 400).
Proof. vm_compute. repeat split. Qed.

(** C5: the empty object [{}] has no [message] field, and the field would
    default to the empty string, but the request never reaches the
    emptiness check: it is answered by the body check. *)
Theorem chat_empty_object_is_not_json :
  let w := stub_world (VDict ∅) (PostRaises Timeout) in
  api_key_configured w = true
  /\ message_field w = inr (VStr (py ""))
  /\ result (chat w) =
       Returned (error_body (py "Request body must be JSON."), 400)
  /\ result (chat w) <>
       Returned (error_body (py "Message cannot be empty."), 400).
Proof.
  cbn zeta. split; [vm_compute; reflexivity|]. split; [reflexivity|].
  split; [vm_compute; reflexivity|].
  intros H. vm_compute in H. discriminate H.
Qed.

(** C8: for a body that is a JSON string the handler returns neither
    shape: it raises, and Flask answers with its own 500 page.  The same
    happens when [requests.post] raises an exception that is neither a
    timeout nor a connection error. *)
Theorem chat_raises_without_response :
  result (chat (stub_world (VStr (py "hi")) (PostRaises Timeout)))
    = Raised AttributeError
  /\ result (chat (stub_world (message_body (VStr (py "hi")))
                              (PostRaises TooManyRedirects)))
    = Raised TooManyRedirects.
Proof. vm_compute. split; reflexivity. Qed.

(** ** What holds besides *)

(** An object without [message] that is not empty reaches the emptiness
    check; a [message] that is not a string is refused as such. *)
Lemma chat_message_field_checks (w : World) (d : gmap str value) :
  api_key_configured w = true ->
  request_json w = VDict d ->
  d <> ∅ ->
  match d !! py "message" with
  | None =>
      result (chat w) =
        Returned (error_body (py "Message cannot be empty."), 400)
  | Some v =>
      isinstance_str v = false ->
      result (chat w) =
        Returned (error_body (py "The 'message' field must be a string."),
                  400)
  end.
Proof.
  intros Hk Hd Hne.
  assert (truthy (request_json w) = true) as Ht.
  { rewrite Hd. cbn. now apply negb_true_iff, bool_decide_eq_false. }
  destruct (d !! py "message") as [v|] eqn:Hm.
  - intros Hs.
    assert (message_field w = inr v) as Hf.
    { unfold message_field. rewrite Hd. cbn. now rewrite Hm. }
    now destruct (run_return _ _ _ (chat_message_not_str w [] Hk Ht v Hf Hs)).
  - assert (message_field w = inr (VStr (py ""))) as Hf.
    { unfold message_field. rewrite Hd. cbn. now rewrite Hm. }
    now destruct (run_return _ _ _
                    (chat_message_empty w [] Hk Ht (py "") Hf eq_refl)).
Qed.

(** A body that [get_json] parses to a false value, or cannot parse and
    gives as [None], is refused as not JSON. *)
Lemma chat_falsy_body_is_refused (w : World) (data : value) :
  api_key_configured w = true ->
  get_json_silent w = inr data ->
  truthy data = false ->
  result (chat w) = Returned (error_body (py "Request body must be JSON."), 400).
Proof.
  intros Hk Hp Hd.
  now destruct (run_return _ _ _ (chat_falsy_body w [] Hk data Hp Hd)).
Qed.

Lemma reply_body_is_not_error_body (s msg : str) :
  jsonify (dict [(py "reply", VStr s)]) <> error_body msg.
Proof.
  unfold error_body, jsonify, dict. cbn [list_to_map foldr].
  unfold uncurry. cbn [fst snd]. intros H.
  apply (f_equal (fun v => match v with
                           | VDict d => d !! py "reply"
                           | _ => None
                           end)) in H.
  rewrite lookup_insert_eq in H.
  rewrite lookup_insert_ne in H by key_neq.
  rewrite lookup_empty in H. discriminate H.
Qed.

(** X2: whenever the handler returns, it returns one of the two shapes:
    a reply with 200, or an error with 400, 500, 502 or 504. *)
Theorem chat_returns_reply_or_error (w : World) (body : value) (st : Z) :
  result (chat w) = Returned (body, st) ->
  (st = 200 /\ exists s, body = jsonify (dict [(py "reply", VStr s)]))
  \/ (In st [400; 500; 502; 504] /\ exists msg, body = error_body msg).
Proof.
  intros H.
  destruct (api_key_configured w) eqn:Hk.
  2:{ destruct (run_return _ _ _ (chat_without_key w [] Hk)) as [Hr _].
      rewrite Hr in H. injection H as <- <-. right. cbn. eauto 10. }
  destruct (get_json_silent w) as [e|data] eqn:Hp.
  { destruct (run_raise _ _ _ (chat_get_json_raises w [] Hk e Hp)) as [Hr _].
    rewrite Hr in H. discriminate H. }
  destruct (truthy data) eqn:Hd0.
  2:{ destruct (run_return _ _ _ (chat_falsy_body w [] Hk data Hp Hd0))
        as [Hr _].
      rewrite Hr in H. injection H as <- <-. right. cbn. eauto 10. }
  assert (truthy (request_json w) = true) as Hd
    by (unfold request_json; now rewrite Hp).
  destruct (message_field w) as [e|v] eqn:Hm.
  { destruct (run_raise _ _ _ (chat_no_get_method w [] Hk Hd e Hm)) as [Hr _].
    rewrite Hr in H. discriminate H. }
  destruct (isinstance_str v) eqn:Hi.
  2:{ destruct (run_return _ _ _ (chat_message_not_str w [] Hk Hd v Hm Hi))
        as [Hr _].
      rewrite Hr in H. injection H as <- <-. right. cbn. eauto 10. }
  destruct v as [| | | |raw| |]; try discriminate Hi.
  destruct (str_truthy (strip raw)) eqn:Hs.
  2:{ destruct (run_return _ _ _ (chat_message_empty w [] Hk Hd raw Hm Hs))
        as [Hr _].
      rewrite Hr in H. injection H as <- <-. right. cbn. eauto 10. }
  destruct (MAX_MESSAGE_LENGTH <? len (strip raw)) eqn:Hl.
  { destruct (run_return _ _ _
                (chat_message_too_long w [] Hk Hd raw Hm Hs Hl)) as [Hr _].
    rewrite Hr in H. injection H as <- <-. right. cbn. eauto 10. }
  assert (validated_message w = Some (strip raw)) as Hv.
  { unfold validated_message. now rewrite Hk, Hd, Hm, Hs, Hl. }
  pose proof (chat_validated_result w _ Hv) as Hc.
  destruct (upstream w _) as [e|r].
  - destruct Hc as (H1 & H2 & H3).
    destruct (issubclass e Timeout);
      [rewrite H1 in H by reflexivity
      |destruct (issubclass e ConnectionError);
        [rewrite H2 in H by reflexivity|rewrite H3 in H by reflexivity]];
      try discriminate H; injection H as <- <-; right; cbn; eauto 10.
  - destruct Hc as (H1 & H2).
    destruct (ok r).
    + specialize (H2 eq_refl).
      destruct (reply_content_of r) as [e|[| | | |s| |]];
        rewrite H2 in H; try discriminate H.
      * destruct (isinstance_exn e _); [|discriminate H].
        injection H as <- <-. right. cbn. eauto 10.
      * destruct (str_truthy (strip s)); injection H as <- <-;
          [left|right]; cbn; eauto 10.
    + rewrite H1 in H by reflexivity. injection H as <- <-.
      right. cbn. eauto 10.
Qed.

Lemma chat_returns_reply_or_error_witness :
  (400 = 200
   /\ exists s, error_body (py "Message cannot be empty.")
                = jsonify (dict [(py "reply", VStr s)]))
  \/ (In 400 [400; 500; 502; 504]
      /\ exists msg, error_body (py "Message cannot be empty.")
                     = error_body msg).
Proof.
  apply (chat_returns_reply_or_error
           (stub_world (message_body (VStr (py "   "))) (PostRaises Timeout))
           (error_body (py "Message cannot be empty.")) 400).
  vm_compute. reflexivity.
Defined.

Lemma upstream_error_message_429 st :
  st = 429 ->
  upstream_error_message st =
    py "API rate limit reached. Please wait a moment and try again.".
Proof. intros ->. reflexivity. Qed.

Lemma upstream_error_message_auth st :
  st = 401 \/ st = 403 ->
  upstream_error_message st = py "API key is invalid or unauthorised.".
Proof. intros [-> | ->]; reflexivity. Qed.

Lemma upstream_error_message_other st :
  st <> 429 -> st <> 401 -> st <> 403 ->
  upstream_error_message st =
    py "AI service returned an error (HTTP " ++ str_of_int st ++ py ").".
Proof.
  intros E1 E2 E3. apply Z.eqb_neq in E1, E2, E3.
  unfold upstream_error_message. rewrite E1, E2, E3. reflexivity.
Qed.

(** X1: the failure table of the upstream call, row by row, for a
    validated request.  The row for an unexpected response holds when
    [.json()] raises an exception the [except] clause lists (a body that
    is not JSON raises [JSONDecodeError], a [ValueError]), and for every
    failed subscript once [.json()] has returned; the table says nothing
    of a [.json()] that raises another exception, nor of a
    [choices[0].message.content] that is not a string. *)
Theorem chat_upstream_table (w : World) (m : str) :
  validated_message w = Some m ->
  (forall e, upstream w (upstream_call w m) = PostRaises e ->
     issubclass e Timeout = true ->
     result (chat w) = Returned (error_body (py
       "The AI service took too long to respond. Please try again."), 504))
  /\ (forall e, upstream w (upstream_call w m) = PostRaises e ->
        issubclass e Timeout = false ->
        issubclass e ConnectionError = true ->
        result (chat w) = Returned (error_body (py
          "Could not reach the AI service. Check your internet connection."),
          502))
  /\ (forall r, upstream w (upstream_call w m) = PostReturns r ->
        ok r = false ->
        (status_code r = 429 ->
         result (chat w) = Returned (error_body (py
           "API rate limit reached. Please wait a moment and try again."),
           502))
        /\ (status_code r = 401 \/ status_code r = 403 ->
            result (chat w) = Returned (error_body (py
              "API key is invalid or unauthorised."), 502))
        /\ (status_code r <> 429 -> status_code r <> 401 ->
            status_code r <> 403 ->
            result (chat w) = Returned (error_body (
              py "AI service returned an error (HTTP "
              ++ str_of_int (status_code r) ++ py ")."), 502)))
  /\ (forall r, upstream w (upstream_call w m) = PostReturns r ->
        ok r = true ->
        (forall e, json_result r = inl e ->
           isinstance_exn e [KeyError; IndexError; ValueError; TypeError]
             = true ->
           result (chat w) = Returned (error_body (py
             "Received an unexpected response from the AI service."), 502))
        /\ (forall v e, json_result r = inr v ->
              reply_content_of r = inl e ->
              result (chat w) = Returned (error_body (py
                "Received an unexpected response from the AI service."),
                502))
        /\ (forall s, reply_content_of r = inr (VStr s) ->
              strip s = [] ->
              result (chat w) = Returned (error_body (py
                "The AI returned an empty response. Please try rephrasing."),
                502))
        /\ (forall s, reply_content_of r = inr (VStr s) ->
              strip s <> [] ->
              result (chat w) =
                Returned (jsonify (dict [(py "reply", VStr (strip s))]),
                          200))).
Proof.
  intros Hv. pose proof (chat_validated_result w m Hv) as H.
  split; [|split; [|split]].
  - intros e He Ht. rewrite He in H. destruct H as (H & _). exact (H Ht).
  - intros e He Ht Hc. rewrite He in H. destruct H as (_ & H & _).
    exact (H Ht Hc).
  - intros r Hr Hok. rewrite Hr in H. destruct H as [H _].
    specialize (H Hok).
    split; [|split].
    + intros E. now rewrite (upstream_error_message_429 _ E) in H.
    + intros E. now rewrite (upstream_error_message_auth _ E) in H.
    + intros E1 E2 E3.
      now rewrite (upstream_error_message_other _ E1 E2 E3) in H.
  - intros r Hr Hok. rewrite Hr in H. destruct H as [_ H].
    specialize (H Hok).
    split; [|split; [|split]].
    + intros e E Hc.
      assert (reply_content_of r = inl e) as E'
        by (unfold reply_content_of; now rewrite E).
      rewrite E', Hc in H. exact H.
    + intros v e Hj E.
      rewrite E, (reply_content_raises_caught r v e Hj E) in H. exact H.
    + intros s E Hs. rewrite E, Hs in H. exact H.
    + intros s E Hs. rewrite E in H.
      destruct (strip s); [congruence|exact H].
Qed.

Lemma chat_upstream_table_witness :
  let r := json_response 200 (completion (VStr (py " Pi is about 3.14. "))) in
  let w := stub_world (message_body (VStr (py "what is pie"))) (PostReturns r) in
  result (chat w) =
    Returned (jsonify (dict [(py "reply", VStr (py "Pi is about 3.14."))]),
              200).
Proof.
  intros r w.
  assert (validated_message w = Some (py "what is pie")) as Hv
    by (vm_compute; reflexivity).
  destruct (chat_upstream_table w (py "what is pie") Hv) as (_ & _ & _ & T).
  destruct (T r eq_refl eq_refl) as (_ & _ & _ & T3).
  apply (T3 (py " Pi is about 3.14. ")).
  - vm_compute. reflexivity.
  - vm_compute. discriminate.
Defined.

(** ** Every run, path by path *)

Lemma method_get_raises obj k dflt e :
  method_get obj k dflt = inl e -> e = AttributeError.
Proof. destruct obj; cbn; congruence. Qed.

(** Every run of [chat] ends in one of the ways of [chat_ends]. *)
Lemma chat_ends_run (w : World) :
  exists f t, chat w [] = (f, t) /\ chat_ends w f t.
Proof.
  destruct (api_key_configured w) eqn:Hk.
  2:{ eexists _, _. split; [apply (chat_without_key w [] Hk)|].
      now constructor. }
  destruct (get_json_silent w) as [e|data] eqn:Hp.
  { eexists _, _. split; [apply (chat_get_json_raises w [] Hk e Hp)|].
    now apply EndsGetJsonRaises. }
  assert (request_json w = data) as Hrj
    by (unfold request_json; now rewrite Hp).
  destruct (truthy data) eqn:Hd0.
  2:{ eexists _, _. split; [apply (chat_falsy_body w [] Hk data Hp Hd0)|].
      apply (EndsGuard w BodyIsJson); try easy.
      unfold validated_message. now rewrite Hk, Hrj, Hd0. }
  assert (truthy (request_json w) = true) as Hd by now rewrite Hrj.
  destruct (message_field w) as [e|v] eqn:Hm.
  { pose proof Hm as He. apply method_get_raises in He. subst e.
    eexists _, _.
    split; [apply (chat_no_get_method w [] Hk Hd AttributeError Hm)|].
    apply EndsNoGetMethod; try easy.
    unfold validated_message. now rewrite Hk, Hd, Hm. }
  destruct (isinstance_str v) eqn:Hi.
  2:{ eexists _, _.
      split; [apply (chat_message_not_str w [] Hk Hd v Hm Hi)|].
      apply (EndsGuard w MessageIsString); try easy.
      unfold validated_message. rewrite Hk, Hd, Hm.
      now destruct v. }
  destruct v as [| | | |raw| |]; try discriminate Hi.
  destruct (str_truthy (strip raw)) eqn:Hs.
  2:{ eexists _, _.
      split; [apply (chat_message_empty w [] Hk Hd raw Hm Hs)|].
      apply (EndsGuard w MessageNonEmpty); try easy.
      unfold validated_message. now rewrite Hk, Hd, Hm, Hs. }
  destruct (MAX_MESSAGE_LENGTH <? len (strip raw)) eqn:Hl.
  { eexists _, _.
    split; [apply (chat_message_too_long w [] Hk Hd raw Hm Hs Hl)|].
    apply (EndsGuard w LengthWithinLimit); try easy.
    unfold validated_message. now rewrite Hk, Hd, Hm, Hs, Hl. }
  assert (validated_message w = Some (strip raw)) as Hv.
  { unfold validated_message. now rewrite Hk, Hd, Hm, Hs, Hl. }
  pose proof (chat_validated w _ [] Hv) as Hrun. cbn zeta in Hrun.
  cbn [app] in Hrun.
  unfold isinstance_exn in Hrun. cbn [existsb] in Hrun.
  destruct (upstream w _) as [e|r] eqn:Hu.
  - rewrite !orb_false_r in Hrun.
    destruct (issubclass e Timeout) eqn:Ht.
    { eexists _, _. split; [exact Hrun|]. rewrite <- app_assoc.
      eapply EndsTimeout; eauto. }
    destruct (issubclass e ConnectionError) eqn:Hc.
    { eexists _, _. split; [exact Hrun|]. rewrite <- app_assoc.
      eapply EndsUnreachable; eauto. }
    eexists _, _. split; [exact Hrun|]. eapply EndsPostRaises; eauto.
  - destruct (ok r) eqn:Hok.
    2:{ rewrite chat_upstream_error_run in Hrun.
        eexists _, _. split; [exact Hrun|]. rewrite <- app_assoc.
        eapply EndsHttpError; eauto. }
    rewrite chat_reply_run in Hrun. unfold reply_text_of in Hrun.
    destruct (reply_content_of r) as [e|content] eqn:Hc.
    { destruct (isinstance_exn e _) eqn:Hi'.
      - eexists _, _. split; [exact Hrun|]. rewrite <- app_assoc.
        eapply EndsUnexpected; eauto.
      - eexists _, _. split; [exact Hrun|].
        eapply EndsExtractRaises; eauto.
        destruct (reply_content_raises r e Hc) as [Hj|[_ Hj]];
          [exact Hj|congruence]. }
    destruct (isinstance_str content) eqn:Hi'.
    2:{ assert (method_strip content = inl AttributeError) as Hst
          by now destruct content.
        rewrite Hst in Hrun. cbn in Hrun.
        eexists _, _. split; [exact Hrun|].
        eapply EndsStripRaises; eauto. }
    destruct content as [| | | |c| |]; try discriminate Hi'.
    cbn [method_strip] in Hrun.
    destruct (strip c) as [|c0 s'] eqn:Hsc; cbn [str_truthy] in Hrun.
    + eexists _, _. split; [exact Hrun|]. rewrite <- app_assoc.
      eapply EndsEmptyReply; eauto.
    + eexists _, _. split; [exact Hrun|]. rewrite <- app_assoc.
      rewrite <- Hsc. eapply EndsReply; eauto. congruence.
Qed.

(** ** What [strip] leaves *)

Lemma lstrip_leading s : leading_space (lstrip s) = false.
Proof.
  induction s as [|c s IH]; [reflexivity|]. cbn [lstrip].
  destruct (isspace c) eqn:E; [exact IH|]. cbn. exact E.
Qed.

Lemma lstrip_suffix s :
  exists p, s = p ++ lstrip s /\ forallb isspace p = true.
Proof.
  induction s as [|c s (p & Hp & Hall)]; [now exists []|]. cbn [lstrip].
  destruct (isspace c) eqn:E.
  - exists (c :: p). split; [cbn; congruence|]. cbn. now rewrite E.
  - now exists [].
Qed.

Lemma forallb_rev {A} (f : A -> bool) l : forallb f (rev l) = forallb f l.
Proof.
  induction l as [|a l IH]; [reflexivity|]. cbn.
  rewrite forallb_app, IH. cbn. rewrite andb_true_r. apply andb_comm.
Qed.

Lemma lstrip_nil_iff s : lstrip s = [] <-> forallb isspace s = true.
Proof.
  induction s as [|c s IH]; [easy|]. cbn.
  destruct (isspace c); [exact IH|]. split; discriminate.
Qed.

Lemma rstrip_prefix s :
  exists q, s = rstrip s ++ q /\ forallb isspace q = true.
Proof.
  destruct (lstrip_suffix (rev s)) as (p & Hp & Hall).
  exists (rev p). split; [|now rewrite forallb_rev].
  unfold rstrip. rewrite <- rev_app_distr, <- Hp. now rewrite rev_involutive.
Qed.

Lemma rstrip_trailing s : trailing_space (rstrip s) = false.
Proof.
  unfold trailing_space, rstrip. rewrite rev_involutive. apply lstrip_leading.
Qed.

Lemma rstrip_leading s :
  leading_space s = false -> leading_space (rstrip s) = false.
Proof.
  intros H. destruct (rstrip_prefix s) as (q & Hq & _).
  destruct (rstrip s) as [|c s']; [reflexivity|].
  rewrite Hq in H. exact H.
Qed.

Lemma rstrip_nil_iff s : rstrip s = [] <-> forallb isspace s = true.
Proof.
  unfold rstrip. rewrite <- (forallb_rev isspace s), <- lstrip_nil_iff.
  split; intros H.
  - apply (f_equal (@rev N)) in H. now rewrite rev_involutive in H.
  - now rewrite H.
Qed.

(** [s.strip()] neither starts nor ends with whitespace. *)
Lemma strip_leading s : leading_space (strip s) = false.
Proof. apply rstrip_leading, lstrip_leading. Qed.

Lemma strip_trailing s : trailing_space (strip s) = false.
Proof. apply rstrip_trailing. Qed.

(** [s.strip()] is empty exactly for a string of whitespace only, the
    empty string included. *)
Lemma strip_nil_iff s : strip s = [] <-> forallb isspace s = true.
Proof.
  unfold strip. rewrite rstrip_nil_iff.
  destruct (lstrip_suffix s) as (p & Hp & Hall).
  rewrite Hp at 2. rewrite forallb_app, Hall. cbn [andb]. reflexivity.
Qed.

Lemma strip_length s : len (strip s) <= len s.
Proof.
  unfold strip, len.
  destruct (lstrip_suffix s) as (p & Hp & _).
  destruct (rstrip_prefix (lstrip s)) as (q & Hq & _).
  rewrite Hp at 2. rewrite Hq at 2. rewrite !length_app. lia.
Qed.

Lemma str_truthy_nil s : str_truthy s = false <-> s = [].
Proof. destruct s; cbn; split; congruence. Qed.

(** ** Reading the events of a run *)

Arguments error_body : simpl never.
Arguments jsonify : simpl never.
Arguments dict : simpl never.
Arguments upstream_call : simpl never.
Arguments upstream_error_message : simpl never.
Arguments strip : simpl never.

Lemma posts_validation_events : posts validation_events = [].
Proof. reflexivity. Qed.

Lemma posts_post_then_log c lvl fmt args :
  posts (validation_events ++ [EPost c; ELog lvl fmt args]) = [c].
Proof. reflexivity. Qed.

Lemma posts_post c : posts (validation_events ++ [EPost c]) = [c].
Proof. reflexivity. Qed.

Lemma logs_validation_events : logs validation_events = [].
Proof. reflexivity. Qed.

Lemma logs_post_then_log c lvl fmt args :
  logs (validation_events ++ [EPost c; ELog lvl fmt args])
  = [(lvl, fmt, args)].
Proof. reflexivity. Qed.

Lemma logs_post c : logs (validation_events ++ [EPost c]) = [].
Proof. reflexivity. Qed.

(** Rewrites [posts] and [logs] of the events of a finished run. *)
Ltac read_events :=
  rewrite ?posts_validation_events, ?posts_post_then_log, ?posts_post,
    ?logs_validation_events, ?logs_post_then_log, ?logs_post.

(** Case analysis on the way the run of [chat w] ends; [Hres] and [Hev]
    name the equations for its result and its events. *)
Ltac by_paths w Hres Hev :=
  let f := fresh "f" in
  let t := fresh "t" in
  let Hrun := fresh "Hrun" in
  let Hends := fresh "Hends" in
  destruct (chat_ends_run w) as (f & t & Hrun & Hends);
  destruct Hends;
  first [ destruct (run_return _ _ _ Hrun) as [Hres Hev]
        | destruct (run_raise _ _ _ Hrun) as [Hres Hev] ];
  clear Hrun; rewrite ?Hres, ?Hev; read_events.

Lemma check_response_status c :
  c <> ApiKeyConfigured -> snd (check_response c) = 400.
Proof. now destruct c. Qed.

(** ** No retries *)

(** X3: a request contacts the upstream at most once.  An answer of 400
    or 500 means it was never contacted; any other answer (200, 502, 504)
    means the request was validated and exactly the one call was made. *)
Theorem chat_contacts_upstream_by_status (w : World) :
  (length (posts (events (chat w))) <= 1)%nat
  /\ match result (chat w) with
     | Returned (_, st) =>
         if (st =? 400) || (st =? 500) then posts (events (chat w)) = []
         else exists m,
                validated_message w = Some m
                /\ posts (events (chat w)) = [upstream_call w m]
     | Raised _ => True
     end.
Proof.
  by_paths w Hres Hev; (split; [cbn; lia|]); try exact I; try reflexivity;
    try (cbn; eauto; fail).
  destruct c; try congruence; reflexivity.
Qed.

(** ** Logging *)

Lemma len_take n (s : str) : len (take n s) <= Z.of_nat n.
Proof. unfold len. rewrite length_take. lia. Qed.

(** X4: what a run logs follows from how it ends.  A 400 answer and an
    uncaught exception leave no log record; a 200 answer leaves one INFO
    record with the lengths of the trimmed message and of the reply; every
    other answer (500, 502, 504) leaves one record of a higher level. *)
Theorem chat_logs_by_outcome (w : World) :
  match result (chat w) with
  | Returned (body, st) =>
      if st =? 400 then logs (events (chat w)) = []
      else if st =? 200 then
        exists m s,
          validated_message w = Some m
          /\ body = jsonify (dict [(py "reply", VStr s)])
          /\ logs (events (chat w)) =
               [(INFO, py "Chat OK — user msg: %d chars, reply: %d chars",
                 [LInt (len m); LInt (len s)])]
      else exists lvl fmt args,
             logs (events (chat w)) = [(lvl, fmt, args)] /\ lvl <> INFO
  | Raised _ => logs (events (chat w)) = []
  end.
Proof.
  by_paths w Hres Hev; try reflexivity;
    try (cbn; eexists _, _, _; split; [reflexivity|discriminate]).
  - destruct c; try congruence; reflexivity.
  - cbn. eauto.
Qed.

(** X5: a log record never holds more than a bounded excerpt of a text:
    every string argument is at most 400 code points long (the first 400
    of an upstream body, the first 80 of the user's message). *)
Theorem chat_log_excerpts_bounded (w : World) :
  Forall (fun '(_, _, args) => excerpts_within 400 args)
         (logs (events (chat w))).
Proof.
  by_paths w Hres Hev; cbn [logs omap]; repeat constructor;
    try apply (len_take 400).
  pose proof (len_take 80 m). lia.
Qed.

(** ** What goes upstream *)

(** A validated message is the trimmed field: not empty, within the
    limit, with no whitespace at either end. *)
Lemma validated_message_trimmed w m :
  validated_message w = Some m ->
  m <> [] /\ len m <= MAX_MESSAGE_LENGTH
  /\ leading_space m = false /\ trailing_space m = false.
Proof.
  intros H. destruct (validated_message_inv w m H)
    as (_ & _ & (raw & _ & ->) & Hs & Hl).
  repeat split; auto using strip_leading, strip_trailing.
  intros E. rewrite E in Hs. discriminate Hs.
Qed.

(** X6: whatever the request, a message that reaches the upstream is
    never empty, never longer than 2000 code points, and never starts or
    ends with whitespace. *)
Theorem chat_upstream_message_invariant (w : World) :
  Forall (fun c => exists m,
            post_json c = build_payload m
            /\ m <> [] /\ len m <= 2000
            /\ leading_space m = false /\ trailing_space m = false)
         (posts (events (chat w))).
Proof.
  destruct (validated_message w) as [m|] eqn:Hv.
  - rewrite (chat_validated_posts w m Hv). repeat constructor.
    exists m. split; [reflexivity|]. now apply (validated_message_trimmed w).
  - by_paths w Hres Hev; try congruence; constructor.
Qed.

(** X8: the call of a validated request carries exactly four headers:
    the bearer authorization built from the configured key, the JSON
    content type, the referer and the application title. *)
Theorem chat_upstream_headers (w : World) (m : str) :
  validated_message w = Some m ->
  exists k c,
    api_key_of w = Some k /\ k <> []
    /\ posts (events (chat w)) = [c]
    /\ post_headers c = dict [
         (py "Authorization", py "Bearer " ++ k);
         (py "Content-Type", py "application/json");
         (py "HTTP-Referer", py "http://localhost:5000");
         (py "X-Title", py "Voice Chatbot")
       ].
Proof.
  intros Hv. destruct (validated_message_inv w m Hv) as (Hk & _).
  unfold api_key_configured in Hk.
  destruct (api_key_of w) as [k|] eqn:Hkey; [|discriminate Hk].
  exists k, (upstream_call w m).
  split; [reflexivity|]. split; [intros ->; discriminate Hk|].
  split; [now apply chat_validated_posts|].
  unfold upstream_call. cbn [post_headers]. rewrite Hkey. reflexivity.
Qed.

Lemma chat_upstream_headers_witness :
  let w := stub_world (message_body (VStr (py "hi"))) (PostRaises Timeout) in
  exists k c,
    api_key_of w = Some k /\ k <> []
    /\ posts (events (chat w)) = [c]
    /\ post_headers c = dict [
         (py "Authorization", py "Bearer " ++ k);
         (py "Content-Type", py "application/json");
         (py "HTTP-Referer", py "http://localhost:5000");
         (py "X-Title", py "Voice Chatbot")
       ].
Proof.
  apply (chat_upstream_headers
           (stub_world (message_body (VStr (py "hi"))) (PostRaises Timeout))
           (py "hi")).
  vm_compute. reflexivity.
Defined.

(** ** The message field *)

Lemma error_body_inj a b : error_body a = error_body b -> a = b.
Proof.
  unfold error_body, jsonify, dict. cbn [list_to_map foldr].
  unfold uncurry. cbn [fst snd]. intros H.
  apply (f_equal (fun v => match v with
                           | VDict d => d !! py "error"
                           | _ => None
                           end)) in H.
  rewrite !lookup_insert_eq in H. congruence.
Qed.

Lemma returned_error_inj a b (st st' : Z) :
  Returned (error_body a, st) = Returned (error_body b, st') ->
  a = b /\ st = st'.
Proof.
  intros H. split.
  - apply error_body_inj.
    exact (f_equal (fun o => match o with
                             | Returned (v, _) => v
                             | Raised _ => VNone
                             end) H).
  - exact (f_equal (fun o => match o with
                             | Returned (_, n) => n
                             | Raised _ => 0
                             end) H).
Qed.

Lemma message_field_of_dict w d v :
  request_json w = VDict d -> d !! py "message" = Some v ->
  truthy (request_json w) = true /\ message_field w = inr v.
Proof.
  intros Hd Hm. split.
  - rewrite Hd. eapply truthy_dict_lookup, Hm.
  - unfold message_field. rewrite Hd. cbn [method_get]. now rewrite Hm.
Qed.

(** X7: with the key configured, a string message is answered with
    "Message cannot be empty." exactly when it consists of whitespace
    only (the empty string included). *)
Theorem chat_blank_message_iff (w : World) (d : gmap str value) (raw : str) :
  api_key_configured w = true ->
  request_json w = VDict d ->
  d !! py "message" = Some (VStr raw) ->
  forallb isspace raw = true
  <-> result (chat w) =
        Returned (error_body (py "Message cannot be empty."), 400).
Proof.
  intros Hk Hd Hm.
  destruct (message_field_of_dict w d _ Hd Hm) as [Ht Hf].
  rewrite <- strip_nil_iff, <- str_truthy_nil.
  destruct (str_truthy (strip raw)) eqn:Hs.
  - split; [discriminate|]. intros H. exfalso.
    destruct (MAX_MESSAGE_LENGTH <? len (strip raw)) eqn:Hl.
    + destruct (run_return _ _ _
                  (chat_message_too_long w [] Hk Ht raw Hf Hs Hl)) as [Hr _].
      rewrite Hr in H. cbn [check_response] in H.
      apply returned_error_inj in H. destruct H as [H _].
      vm_compute in H. discriminate H.
    + assert (validated_message w = Some (strip raw)) as Hv.
      { unfold validated_message. now rewrite Hk, Ht, Hf, Hs, Hl. }
      by_paths w Hres Hev; try congruence; rewrite Hres in H;
        discriminate H.
  - split; [intros _|reflexivity].
    now destruct (run_return _ _ _
                    (chat_message_empty w [] Hk Ht raw Hf Hs)).
Qed.

Lemma chat_blank_message_iff_witness :
  forallb isspace (py "   ") = true
  <-> result (chat (stub_world (message_body (VStr (py "   ")))
                               (PostRaises Timeout))) =
        Returned (error_body (py "Message cannot be empty."), 400).
Proof.
  apply (chat_blank_message_iff
           (stub_world (message_body (VStr (py "   "))) (PostRaises Timeout))
           (dict [(py "message", VStr (py "   "))]) (py "   ")).
  - vm_compute. reflexivity.
  - reflexivity.
  - vm_compute. reflexivity.
Defined.

Lemma returned_status_inj (r : response) (b : value) (st : Z) :
  Returned r = Returned (b, st) -> snd r = st.
Proof.
  intros H.
  exact (f_equal (fun o => match o with
                           | Returned r' => snd r'
                           | Raised _ => 0
                           end) H).
Qed.

Lemma returned_body_inj (r : response) (b : value) (st : Z) :
  Returned r = Returned (b, st) -> fst r = b.
Proof.
  intros H.
  exact (f_equal (fun o => match o with
                           | Returned r' => fst r'
                           | Raised _ => VNone
                           end) H).
Qed.

(** The status of a returned response differs from [st]. *)
Ltac wrong_status H :=
  exfalso; apply returned_status_inj in H;
  rewrite ?check_response_status in H by assumption;
  cbn [snd check_response] in H; discriminate H.

(** ** The health route and the configuration guard *)

(** X9: [/health] and [/chat] read the configuration the same way: the
    flag [api_key_configured] of [/health] is false exactly when [/chat]
    answers 500.  [/health] itself only reads the environment. *)
Theorem health_flag_matches_chat (w : World) :
  exists d b,
    result (health w) = Returned (VDict d, 200)
    /\ d !! py "api_key_configured" = Some (VBool b)
    /\ events (health w) = [EGetenv (py "OPENROUTER_API_KEY")]
    /\ (b = false <-> exists body, result (chat w) = Returned (body, 500)).
Proof.
  eexists _, (api_key_configured w).
  split; [reflexivity|]. split.
  { unfold dict. cbn [list_to_map foldr]. unfold uncurry. cbn [fst snd].
    rewrite (lookup_insert_ne _ (py "status")) by key_neq.
    rewrite (lookup_insert_ne _ (py "model")) by key_neq.
    apply lookup_insert_eq. }
  split; [reflexivity|]. split.
  - intros Hk. exists (fst (check_response ApiKeyConfigured)).
    destruct (run_return _ _ _ (chat_without_key w [] Hk)) as [Hr _].
    rewrite Hr. reflexivity.
  - intros [body H].
    by_paths w Hres Hev; try assumption; rewrite Hres in H;
      try discriminate H; wrong_status H.
Qed.

(** ** The reply *)

(** X11: a 200 answer carries a reply that is the stripped content of
    the upstream completion: it is never empty and never starts or ends
    with whitespace. *)
Theorem chat_reply_is_trimmed (w : World) (body : value) :
  result (chat w) = Returned (body, 200) ->
  exists m r content,
    validated_message w = Some m
    /\ upstream w (upstream_call w m) = PostReturns r
    /\ reply_content_of r = inr (VStr content)
    /\ body = jsonify (dict [(py "reply", VStr (strip content))])
    /\ strip content <> []
    /\ leading_space (strip content) = false
    /\ trailing_space (strip content) = false.
Proof.
  intros H.
  by_paths w Hres Hev; rewrite Hres in H; try discriminate H;
    try wrong_status H.
  apply returned_body_inj in H. cbn [fst] in H. subst body.
  exists m, r, content.
  repeat split; auto using strip_leading, strip_trailing.
Qed.

Lemma chat_reply_is_trimmed_witness :
  let r := json_response 200 (completion (VStr (py " Four. "))) in
  let w := stub_world (message_body (VStr (py "two plus two")))
                      (PostReturns r) in
  exists m r content,
    validated_message w = Some m
    /\ upstream w (upstream_call w m) = PostReturns r
    /\ reply_content_of r = inr (VStr content)
    /\ jsonify (dict [(py "reply", VStr (py "Four."))])
       = jsonify (dict [(py "reply", VStr (strip content))])
    /\ strip content <> []
    /\ leading_space (strip content) = false
    /\ trailing_space (strip content) = false.
Proof.
  apply (chat_reply_is_trimmed
           (stub_world (message_body (VStr (py "two plus two")))
              (PostReturns
                 (json_response 200 (completion (VStr (py " Four. "))))))
           (jsonify (dict [(py "reply", VStr (py "Four."))]))).
  vm_compute. reflexivity.
Defined.

(** ** The request body *)

(** X10: of a JSON object, [chat] reads the [message] field and nothing
    else: two non-empty objects that agree on that field (both lack it,
    or both hold the same value) give the same result and the same
    events, whatever else they contain. *)
Theorem chat_reads_only_message_field
    (w : World) (d d' : gmap str value) :
  d <> ∅ -> d' <> ∅ ->
  d !! py "message" = d' !! py "message" ->
  run (chat (with_body w (VDict d))) = run (chat (with_body w (VDict d'))).
Proof.
  intros Hd Hd' Hm.
  assert (chat (with_body w (VDict d)) [] = chat (with_body w (VDict d')) [])
    as E; [|unfold run; now rewrite E].
  destruct (api_key_configured w) eqn:Hk.
  - assert (forall x : gmap str value, x <> ∅ ->
              truthy (request_json (with_body w (VDict x))) = true) as Ht.
    { intros x Hx. cbn. now apply negb_true_iff, bool_decide_eq_false. }
    rewrite (chat_reads_message (with_body w (VDict d)) [] Hk (Ht d Hd)).
    rewrite (chat_reads_message (with_body w (VDict d')) [] Hk (Ht d' Hd')).
    unfold message_field, request_json, requests_post, upstream_call,
      api_key_of.
    cbn [get_json_silent environ upstream with_body method_get].
    rewrite Hm. reflexivity.
  - rewrite (chat_without_key (with_body w (VDict d)) [] Hk).
    rewrite (chat_without_key (with_body w (VDict d')) [] Hk).
    reflexivity.
Qed.

Lemma chat_reads_only_message_field_witness :
  let w := stub_world VNone (PostRaises Timeout) in
  run (chat (with_body w
         (VDict (dict [(py "message", VStr (py "hi"));
                       (py "history", VList [VInt 1])]))))
  = run (chat (with_body w (VDict (dict [(py "message", VStr (py "hi"))])))).
Proof.
  apply (chat_reads_only_message_field
           (stub_world VNone (PostRaises Timeout))
           (dict [(py "message", VStr (py "hi"));
                  (py "history", VList [VInt 1])])
           (dict [(py "message", VStr (py "hi"))])).
  - intros H. vm_compute in H. discriminate H.
  - intros H. vm_compute in H. discriminate H.
  - vm_compute. reflexivity.
Defined.

(** X12: with the key configured, a string message is relayed exactly
    when its trimmed length is between 1 and 2000 code points, both
    bounds included; otherwise it is answered with 400 and nothing is
    sent. *)
Theorem chat_relays_iff_within_bounds
    (w : World) (d : gmap str value) (raw : str) :
  api_key_configured w = true ->
  request_json w = VDict d ->
  d !! py "message" = Some (VStr raw) ->
  (1 <= len (strip raw) <= 2000 ->
   posts (events (chat w)) = [upstream_call w (strip raw)])
  /\ (~ 1 <= len (strip raw) <= 2000 ->
      posts (events (chat w)) = []
      /\ exists msg, result (chat w) = Returned (error_body msg, 400)).
Proof.
  intros Hk Hd Hm.
  destruct (message_field_of_dict w d _ Hd Hm) as [Ht Hf].
  split.
  - intros [Hlo Hhi]. apply chat_validated_posts.
    unfold validated_message. rewrite Hk, Ht, Hf. cbn [andb].
    rewrite str_truthy_len by lia.
    assert ((MAX_MESSAGE_LENGTH <? len (strip raw)) = false) as ->
      by (apply Z.ltb_ge; unfold MAX_MESSAGE_LENGTH; lia).
    reflexivity.
  - intros Hout.
    destruct (str_truthy (strip raw)) eqn:Hs.
    + assert ((MAX_MESSAGE_LENGTH <? len (strip raw)) = true) as Hl.
      { apply Z.ltb_lt. unfold MAX_MESSAGE_LENGTH.
        destruct (strip raw); [discriminate Hs|].
        unfold len in *. cbn [length] in *. lia. }
      destruct (run_return _ _ _
                  (chat_message_too_long w [] Hk Ht raw Hf Hs Hl))
        as [-> ->].
      split; [reflexivity|]. eexists. reflexivity.
    + destruct (run_return _ _ _ (chat_message_empty w [] Hk Ht raw Hf Hs))
        as [-> ->].
      split; [reflexivity|]. eexists. reflexivity.
Qed.

(** The upper bound is included: 2000 characters are relayed. *)
Lemma chat_relays_iff_within_bounds_witness :
  let raw := repeat 97%N 2000 in
  let w := stub_world (message_body (VStr raw)) (PostRaises Timeout) in
  posts (events (chat w)) = [upstream_call w (strip raw)].
Proof.
  refine (proj1 (chat_relays_iff_within_bounds
    (stub_world (message_body (VStr (repeat 97%N 2000))) (PostRaises Timeout))
    (dict [(py "message", VStr (repeat 97%N 2000))])
    (repeat 97%N 2000) _ _ _) _).
  - vm_compute. reflexivity.
  - reflexivity.
  - vm_compute. reflexivity.
  - vm_compute. split; discriminate.
Defined.

(** ** The completion *)

(** X13: of the completion's [choices] only the first entry is read: two
    response bodies whose [choices] lists start with the same entry give
    the same reply text, or fail the same way, whatever follows it. *)
Theorem extract_reply_uses_first_choice
    (r r' : Response) (d d' : gmap str value) (choice : value)
    (others others' : list value) (t : list event) :
  json_body r = Some (VDict d) ->
  json_body r' = Some (VDict d') ->
  d !! py "choices" = Some (VList (choice :: others)) ->
  d' !! py "choices" = Some (VList (choice :: others')) ->
  extract_reply_text r t = extract_reply_text r' t.
Proof.
  intros Hr Hr' Hd Hd'. rewrite !extract_reply_text_run.
  unfold json_body in Hr, Hr'.
  unfold reply_text_of, reply_content_of.
  destruct (json_result r) as [|v]; [discriminate Hr|]. injection Hr as ->.
  destruct (json_result r') as [|v']; [discriminate Hr'|].
  injection Hr' as ->.
  cbn [getitem]. rewrite Hd, Hd'. reflexivity.
Qed.

Lemma extract_reply_uses_first_choice_witness :
  let first := VDict (dict [(py "message",
                 VDict (dict [(py "content", VStr (py "one"))]))]) in
  let second := VDict (dict [(py "message",
                  VDict (dict [(py "content", VStr (py "two"))]))]) in
  extract_reply_text
    (json_response 200 (VDict (dict [(py "choices", VList [first; second])])))
    []
  = extract_reply_text
      (json_response 200 (VDict (dict [(py "choices", VList [first])]))) [].
Proof.
  intros first second.
  apply (extract_reply_uses_first_choice _ _
           (dict [(py "choices", VList [first; second])])
           (dict [(py "choices", VList [first])])
           first [second] [] []).
  - reflexivity.
  - reflexivity.
  - vm_compute. reflexivity.
  - vm_compute. reflexivity.
Defined.

(** ** What the caller is told, and when the handler gives up *)

(** The [n]-th fixed message. *)
Ltac fixed_message n :=
  left; eexists; split;
  [apply (nth_error_In _ n); reflexivity|reflexivity].

(** X14: an error answer tells the caller one of eleven fixed sentences,
    or the sentence naming the upstream status code (a code in 400..599):
    no text of the request, of the upstream body or of an exception
    reaches the error body. *)
Theorem chat_error_messages_are_fixed (w : World) (body : value) (st : Z) :
  result (chat w) = Returned (body, st) ->
  st <> 200 ->
  (exists msg, In msg fixed_error_messages /\ body = error_body msg)
  \/ (exists code,
        400 <= code < 600
        /\ body = error_body (py "AI service returned an error (HTTP "
                              ++ str_of_int code ++ py ").")).
Proof.
  intros H Hst.
  by_paths w Hres Hev; rewrite Hres in H; try discriminate H;
    pose proof (returned_status_inj _ _ _ H) as Hs;
    apply returned_body_inj in H; cbn [fst snd] in H, Hs; subst body.
  - fixed_message 0%nat.
  - destruct c; try congruence; cbn [fst check_response].
    + fixed_message 1%nat.
    + fixed_message 2%nat.
    + fixed_message 3%nat.
    + fixed_message 4%nat.
  - fixed_message 5%nat.
  - fixed_message 6%nat.
  - destruct (Z.eq_dec (status_code r) 429) as [E|E1].
    { rewrite (upstream_error_message_429 _ E). fixed_message 7%nat. }
    destruct (Z.eq_dec (status_code r) 401) as [E|E2].
    { rewrite (upstream_error_message_auth _ (or_introl E)).
      fixed_message 8%nat. }
    destruct (Z.eq_dec (status_code r) 403) as [E|E3].
    { rewrite (upstream_error_message_auth _ (or_intror E)).
      fixed_message 8%nat. }
    rewrite (upstream_error_message_other _ E1 E2 E3).
    right. exists (status_code r). split; [now apply ok_false_iff|reflexivity].
  - fixed_message 9%nat.
  - fixed_message 10%nat.
  - congruence.
Qed.

Lemma chat_error_messages_are_fixed_witness :
  (exists msg,
     In msg fixed_error_messages
     /\ error_body (py "AI service returned an error (HTTP 503).")
        = error_body msg)
  \/ (exists code,
        400 <= code < 600
        /\ error_body (py "AI service returned an error (HTTP 503).")
           = error_body (py "AI service returned an error (HTTP "
                         ++ str_of_int code ++ py ").")).
Proof.
  apply (chat_error_messages_are_fixed
           (stub_world (message_body (VStr (py "hi")))
                       (PostReturns (json_response 503 VNone)))
           (error_body (py "AI service returned an error (HTTP 503).")) 502).
  - vm_compute. reflexivity.
  - discriminate.
Defined.

(** X15: the handler leaves by an exception in five situations only,
    and in none of them writes a log record.  Before any upstream call:
    [get_json] itself raises (the decoder, on a body nested too deep:
    [silent] silences [ValueError] only); or the body is JSON of a true
    value that is not an object ([AttributeError] on [data.get]).  After
    the one call: [requests.post] raises something that is neither a
    timeout nor a connection error; [.json()] raises something the
    [except] clause does not list; or a success response holds a
    [choices[0].message.content] that is not a string ([AttributeError]
    on [strip]). *)
Theorem chat_raises_only_when (w : World) (e : exn) :
  result (chat w) = Raised e ->
  logs (events (chat w)) = []
  /\ ((api_key_configured w = true
       /\ get_json_silent w = inl e
       /\ posts (events (chat w)) = [])
      \/ (e = AttributeError
          /\ api_key_configured w = true
          /\ truthy (request_json w) = true
          /\ (forall d, request_json w <> VDict d)
          /\ posts (events (chat w)) = [])
      \/ (exists m,
            validated_message w = Some m
            /\ upstream w (upstream_call w m) = PostRaises e
            /\ issubclass e Timeout = false
            /\ issubclass e ConnectionError = false)
      \/ (exists m r,
            validated_message w = Some m
            /\ upstream w (upstream_call w m) = PostReturns r
            /\ ok r = true
            /\ json_result r = inl e
            /\ isinstance_exn e [KeyError; IndexError; ValueError; TypeError]
               = false)
      \/ (e = AttributeError
          /\ exists m r content,
               validated_message w = Some m
               /\ upstream w (upstream_call w m) = PostReturns r
               /\ ok r = true
               /\ reply_content_of r = inr content
               /\ isinstance_str content = false)).
Proof.
  intros H.
  by_paths w Hres Hev; rewrite Hres in H; try discriminate H;
    injection H as <-; (split; [reflexivity|]).
  - left. repeat split; assumption.
  - right. left. repeat split; try assumption.
    intros d Hd.
    match goal with Hm : message_field w = inl _ |- _ =>
      unfold message_field in Hm; rewrite Hd in Hm; discriminate Hm end.
  - do 2 right. left. eauto 10.
  - do 3 right. left. eauto 10.
  - do 4 right. split; [reflexivity|]. eauto 10.
Qed.

Lemma chat_raises_only_when_witness :
  logs (events (chat (stub_world (VList [VInt 1]) (PostRaises Timeout)))) = [].
Proof.
  refine (proj1 (chat_raises_only_when
    (stub_world (VList [VInt 1]) (PostRaises Timeout)) AttributeError _)).
  vm_compute. reflexivity.
Defined.

(** ** What a run reads *)

(** X16: every run of [chat] reads the key from the environment first,
    and once (it is read anew on each request); the request body is read
    after it, once, and only when the key is configured. *)
Theorem chat_reads_key_then_body (w : World) :
  exists rest,
    events (chat w) = EGetenv (py "OPENROUTER_API_KEY") :: rest
    /\ Forall (fun ev => forall name, ev <> EGetenv name) rest
    /\ if api_key_configured w
       then exists rest', rest = EGetJson :: rest' /\ ~ In EGetJson rest'
       else ~ In EGetJson rest.
Proof.
  by_paths w Hres Hev;
    repeat match goal with
           | Hk : api_key_configured w = _ |- _ => rewrite Hk; clear Hk
           | Hv : validated_message w = Some _ |- _ =>
               destruct (validated_message_inv w _ Hv) as (Hk & _); clear Hv
           end;
    eexists; (split; [reflexivity|]);
    (split; [repeat constructor; discriminate|]);
    try (eexists; split; [reflexivity|]);
    cbn [In]; intros Hin;
    repeat match goal with
           | Hin : _ \/ _ |- _ => destruct Hin as [Hin|Hin]
           | Hin : _ = _ |- _ => discriminate Hin
           | Hin : False |- _ => exact Hin
           end.
Qed.

(** X17: surrounding whitespace of the message changes nothing: two
    request bodies [{"message": ...}] whose messages strip to the same
    text give the same result and the same events. *)
Theorem chat_ignores_surrounding_space (w : World) (raw raw' : str) :
  strip raw = strip raw' ->
  run (chat (with_body w (message_body (VStr raw))))
  = run (chat (with_body w (message_body (VStr raw')))).
Proof.
  intros Hs.
  assert (chat (with_body w (message_body (VStr raw))) []
          = chat (with_body w (message_body (VStr raw'))) [])
    as E; [|unfold run; now rewrite E].
  assert (forall x, (dict [(py "message", VStr x)] : gmap str value)
                      !! py "message" = Some (VStr x)) as Hl.
  { intros x. unfold dict. cbn [list_to_map foldr]. apply lookup_insert_eq. }
  destruct (api_key_configured w) eqn:Hk.
  - assert (forall x, truthy (request_json
                        (with_body w (message_body (VStr x)))) = true) as Ht.
    { intros x. unfold request_json. cbn [get_json_silent with_body].
      unfold message_body. eapply truthy_dict_lookup, Hl. }
    rewrite (chat_reads_message
               (with_body w (message_body (VStr raw))) [] Hk (Ht raw)).
    rewrite (chat_reads_message
               (with_body w (message_body (VStr raw'))) [] Hk (Ht raw')).
    unfold message_field, request_json, requests_post, upstream_call,
      api_key_of.
    cbn [get_json_silent environ upstream with_body]. unfold message_body.
    cbn [method_get]. rewrite !Hl. mstep.
    cbn [isinstance_str negb method_strip]. rewrite Hs. reflexivity.
  - rewrite (chat_without_key
               (with_body w (message_body (VStr raw))) [] Hk).
    rewrite (chat_without_key
               (with_body w (message_body (VStr raw'))) [] Hk).
    reflexivity.
Qed.

Lemma chat_ignores_surrounding_space_witness :
  let w := stub_world VNone (PostRaises Timeout) in
  run (chat (with_body w (message_body (VStr (py "  what is pi ")))))
  = run (chat (with_body w (message_body (VStr (py "what is pi"))))).
Proof.
  apply (chat_ignores_surrounding_space
           (stub_world VNone (PostRaises Timeout))
           (py "  what is pi ") (py "what is pi")).
  vm_compute. reflexivity.
Defined.
